(** * Mutual-TLS authentication handler: pkg/auth/mtls_authhandler.go

    A shallow embedding of the handler and the properties of its
    certificate verifier, outbound authenticator, constructor and accept
    loop.

    Go's standard library (crypto/x509, crypto/tls, net) and the
    certificate provider are collaborators of the handler: their answers are
    parameters of the model ([GoRuntime], [certs_CertificateProvider]), and every
    call that reaches them is recorded in a trace of [Event]s, so that
    statements such as "no network I/O is performed" are statements about
    that trace. *)

From Stdlib Require Import List ZArith NArith String Bool Lia Permutation.
From Stdlib.Strings Require Import Byte.
Import ListNotations.
Local Open Scope string_scope.
Local Open Scope Z_scope.
Local Open Scope list_scope.

Set Implicit Arguments.

(** ** Go values *)

(** [time.Time] as an instant on the time line (seconds since the epoch);
    [Before] is [Time.Before]. *)
Definition Time : Type := Z.

Definition Before (t u : Time) : bool := t <? u.

(** [identity.NumericIdentity] is a [uint32]; only its identity matters here. *)
Definition NumericIdentity : Type := N.

(** A network connection handle ([net.Conn]). *)
Definition Conn : Type := N.

(** Arguments of a format string. *)
Inductive fmtArg : Type :=
| ArgS (s : string)
| ArgD (n : Z).

(** Go [error] values: what [errors.New] and [fmt.Errorf] build (with and
    without a [%w] verb), the sentinel [net.ErrClosed], and [*net.OpError],
    which is what [Accept] returns and which unwraps to its cause. *)
Inductive error : Type :=
| errors_New (msg : string)
| fmt_Errorf (format : string) (args : list fmtArg)
| fmt_Errorf_w (format : string) (args : list fmtArg) (wrapped : error)
| net_OpError (op : string) (cause : error)
| net_ErrClosed.

(** [errors.Is(err, net.ErrClosed)]: follow the [Unwrap] chain up to the
    sentinel. *)
Fixpoint errors_Is_ErrClosed (err : error) : bool :=
  match err with
  | net_ErrClosed => true
  | fmt_Errorf_w _ _ wrapped => errors_Is_ErrClosed wrapped
  | net_OpError _ cause => errors_Is_ErrClosed cause
  | errors_New _ | fmt_Errorf _ _ => false
  end.

(** The fields of [x509.Certificate] the handler reads. *)
Record Certificate : Type := mkCertificate {
  Raw : list byte;
  IsCA : bool;
  NotAfter : Time;
  URIs : list string
}.

(** [x509.CertPool], as the sequence of certificates added to it: what the
    library makes of a pool is part of [x509_Verify] below. *)
Definition CertPool : Type := list Certificate.

Definition x509_NewCertPool : CertPool := [].

Definition AddCert (s : CertPool) (cert : Certificate) : CertPool := s ++ [cert].

Record VerifyOptions : Type := mkVerifyOptions {
  Roots : CertPool;
  Intermediates : CertPool
}.

(** [tls.Certificate]; [Leaf] is a pointer and may be nil. *)
Record tls_Certificate : Type := mkTLSCertificate {
  Leaf : option Certificate
}.

Record authRequest : Type := mkAuthRequest {
  localIdentity : NumericIdentity;
  remoteIdentity : NumericIdentity;
  remoteNodeIP : string
}.

Record authResponse : Type := mkAuthResponse {
  expirationTime : Time
}.

Record MutualAuthConfig : Type := mkMutualAuthConfig {
  MutualAuthListenerPort : Z
}.

(** ** Collaborators *)

(** [certs.CertificateProvider], the interface the handler consumes.
    [ValidateIdentity] returns Go's pair [(bool, error)]. *)
Record certs_CertificateProvider : Type := mkCertificateProvider {
  GetTrustBundle : error + CertPool;
  GetCertificateForIdentity : NumericIdentity -> error + tls_Certificate;
  ValidateIdentity : NumericIdentity -> Certificate -> bool * option error;
  NumericIdentityToSNI : NumericIdentity -> string;
  SNIToNumericIdentity : string -> error + NumericIdentity
}.

(** What crypto/tls does during [Handshake], seen from the callbacks of
    [tls.Config]: it may ask for the client certificate, hand the peer's raw
    certificates to [VerifyPeerCertificate] (whose error aborts the
    handshake), fail on its own, or complete. *)
Inductive HandshakeScript : Type :=
| HsDone
| HsFail (err : error)
| HsGetClientCertificate (next : HandshakeScript)
| HsVerifyPeerCertificate (rawCerts : list (list byte)) (next : HandshakeScript).

(** One return of [Listener.Accept]. *)
Inductive AcceptResult : Type :=
| Accepted (conn : Conn)
| AcceptFailed (err : error).

(** The answers of the Go runtime and of [NumericIdentity.String]. *)
Class GoRuntime : Type := mkGoRuntime {
  x509_ParseCertificate : list byte -> error + Certificate;
  x509_Verify : Certificate -> VerifyOptions -> option error;
  net_Dial : string -> Z -> error + Conn;
  tls_Handshake : Conn -> string -> HandshakeScript;
  net_Listen : Z -> option error;
  NumericIdentity_String : NumericIdentity -> string
}.

(** ** Effects *)

Inductive Level : Type := DebugLevel | InfoLevel | ErrorLevel | FatalLevel.

Inductive Event : Type :=
| EvLog (lvl : Level) (msg : string)
| EvGetCertificateForIdentity (id : NumericIdentity)
| EvGetTrustBundle
| EvNumericIdentityToSNI (id : NumericIdentity)
| EvValidateIdentity (id : NumericIdentity) (leaf : Certificate)
| EvVerify (leaf : Certificate) (opts : VerifyOptions)
| EvDial (ip : string) (port : Z)
| EvConnClose (conn : Conn)
| EvTLSClose (conn : Conn)
| EvHandshake (conn : Conn) (serverName : string)
| EvGetClientCertificate
| EvListen (port : Z)
| EvReady
| EvAccept
| EvGoHandleConnection (conn : Conn)
| EvCancel.

(** How a Go function ends: it returns a value, returns an error, panics
    (a nil dereference), or the process exits in [log.Fatal]. *)
Inductive Outcome (A : Type) : Type :=
| Return (a : A)
| Error (e : error)
| Panic
| Fatal.

Arguments Return {A} a.
Arguments Error {A} e.
Arguments Panic {A}.
Arguments Fatal {A}.

(** Kinds of events. *)
Definition isListen (ev : Event) : bool :=
  match ev with
  | EvListen _ => true
  | _ => false
  end.

Definition isProviderCall (ev : Event) : bool :=
  match ev with
  | EvGetCertificateForIdentity _ | EvGetTrustBundle
  | EvNumericIdentityToSNI _ | EvValidateIdentity _ _ => true
  | _ => false
  end.

Definition isValidateIdentity (ev : Event) : bool :=
  match ev with
  | EvValidateIdentity _ _ => true
  | _ => false
  end.

(** A computation: the trace of its calls and how it ends. *)
Definition M (A : Type) : Type := list Event * Outcome A.

Definition ret {A : Type} (a : A) : M A := ([], Return a).

Definition throw {A : Type} (e : error) : M A := ([], Error e).

Definition panic {A : Type} : M A := ([], Panic).

Definition fatal {A : Type} : M A := ([], Fatal).

Definition emit (ev : Event) : M unit := ([ev], Return tt).

Definition bind {A B : Type} (c : M A) (k : A -> M B) : M B :=
  match c with
  | (tr, Return a) => let (tr', r) := k a in (tr ++ tr', r)
  | (tr, Error e) => (tr, Error e)
  | (tr, Panic) => (tr, Panic)
  | (tr, Fatal) => (tr, Fatal)
  end.

(** [defer f()]: [ev] happens when the body is left, however it is left,
    except in [log.Fatal], which exits without running deferred calls. *)
Definition defer {A : Type} (ev : Event) (body : M A) : M A :=
  match body with
  | (tr, Fatal) => (tr, Fatal)
  | (tr, r) => (tr ++ [ev], r)
  end.

(** [fmt.Errorf("...: %w", err)] around the error of a call. *)
Definition wrapError {A : Type} (f : error -> error) (c : M A) : M A :=
  match c with
  | (tr, Error e) => (tr, Error (f e))
  | other => other
  end.

Definition trace {A : Type} (c : M A) : list Event := fst c.

Definition outcome {A : Type} (c : M A) : Outcome A := snd c.

Declare Scope go_scope.
Delimit Scope go_scope with go.
Notation "x <- c ;; k" := (bind c (fun x => k))
  (at level 61, c at next level, right associativity) : go_scope.
Notation "c ;; k" := (bind c (fun _ => k))
  (at level 61, right associativity) : go_scope.
Local Open Scope go_scope.

(** ** The handler *)

Record mutualAuthHandler : Type := mkMutualAuthHandler {
  cfg : MutualAuthConfig;
  cert : certs_CertificateProvider
}.

(** The error values the handler builds, under the names of the error
    taxonomy. *)
Definition InvalidRequest : error := errors_New "authRequest is nil".

Definition EmptyChainList : error := fmt_Errorf "no certificate chains found" [].

Definition MissingLeafCertificate : error := fmt_Errorf "no leaf certificate found" [].

Definition ChainVerificationFailed (err : error) : error :=
  fmt_Errorf_w "failed to verify certificate: %w" [] err.

Definition IdentityValidationError (err : error) : error :=
  fmt_Errorf_w "failed to validate SAN: %w" [] err.

Definition IdentityMismatch : error := fmt_Errorf "unable to validate SAN" [].

Definition NoExpirationDetermined : error :=
  fmt_Errorf "failed to get expiration time of peer certificate" [].

Definition CertificateParseError (err : error) : error :=
  fmt_Errorf_w "failed to parse certificate: %w" [] err.

Definition HandshakeFailed (err : error) : error :=
  fmt_Errorf_w "failed to perform TLS handshake: %w" [] err.

Section Handler.

Context {go : GoRuntime}.

Definition CertificateUnavailable (id : NumericIdentity) (err : error) : error :=
  fmt_Errorf_w "failed to get certificate for local identity %s: %w"
    [ArgS (NumericIdentity_String id)] err.

Definition TrustBundleUnavailable (err : error) : error :=
  fmt_Errorf_w "failed to get CA bundle: %w" [] err.

Definition ConnectionFailed (ip : string) (port : Z) (err : error) : error :=
  fmt_Errorf_w "failed to dial %s:%d: %w" [ArgS ip; ArgD port] err.

(** *** verifyPeerCertificate *)

(** The inner loop over one chain: certificates flagged as CA go to the
    intermediates pool, any other certificate is assigned to [leaf]. *)
Fixpoint splitChain (chain : list Certificate) (opts : VerifyOptions)
    (leaf : option Certificate) : VerifyOptions * option Certificate :=
  match chain with
  | [] => (opts, leaf)
  | cert :: rest =>
      if IsCA cert
      then splitChain rest
             {| Roots := Roots opts;
                Intermediates := AddCert (Intermediates opts) cert |} leaf
      else splitChain rest opts (Some cert)
  end.

(** The identity check of one leaf; [id] is the pointer argument. *)
Definition validateSAN (m : mutualAuthHandler) (id : option NumericIdentity)
    (leaf : Certificate) : M unit :=
  match id with
  | None => ret tt
  | Some i =>
      emit (EvLog DebugLevel "Validating Server SNI") ;;
      emit (EvValidateIdentity i leaf) ;;
      match ValidateIdentity (cert m) i leaf with
      | (_, Some err) => throw (IdentityValidationError err)
      | (false, None) => throw IdentityMismatch
      | (true, None) => ret tt
      end
  end.

(** The body of the loop over the chains; it returns the value assigned to
    [expirationTime]. *)
Definition verifyChain (m : mutualAuthHandler) (id : option NumericIdentity)
    (caBundle : CertPool) (chain : list Certificate) : M Time :=
  let (opts, leaf) :=
    splitChain chain
      {| Roots := caBundle; Intermediates := x509_NewCertPool |} None in
  match leaf with
  | None => throw MissingLeafCertificate
  | Some leaf =>
      emit (EvVerify leaf opts) ;;
      match x509_Verify leaf opts with
      | Some err => throw (ChainVerificationFailed err)
      | None =>
          validateSAN m id leaf ;;
          emit (EvLog DebugLevel "Validated certificate") ;;
          ret (NotAfter leaf)
      end
  end.

Fixpoint verifyChains (m : mutualAuthHandler) (id : option NumericIdentity)
    (caBundle : CertPool) (certChains : list (list Certificate))
    (expiration : option Time) : M (option Time) :=
  match certChains with
  | [] => ret expiration
  | chain :: rest =>
      t <- verifyChain m id caBundle chain ;;
      verifyChains m id caBundle rest (Some t)
  end.

Definition verifyPeerCertificate (m : mutualAuthHandler)
    (id : option NumericIdentity) (caBundle : CertPool)
    (certChains : list (list Certificate)) : M (option Time) :=
  if (Z.of_nat (List.length certChains) =? 0)
  then throw EmptyChainList
  else verifyChains m id caBundle certChains None.

(** The leaf and the verification options the inner loop computes for a
    chain. *)
Definition chainLeaf (chain : list Certificate) : option Certificate :=
  snd (splitChain chain
         {| Roots := x509_NewCertPool; Intermediates := x509_NewCertPool |} None).

Definition chainOptions (caBundle : CertPool) (chain : list Certificate)
    : VerifyOptions :=
  fst (splitChain chain
         {| Roots := caBundle; Intermediates := x509_NewCertPool |} None).

(** The identity check accepts the leaf, or is skipped. *)
Definition identityAccepted (m : mutualAuthHandler)
    (id : option NumericIdentity) (leaf : Certificate) : Prop :=
  match id with
  | None => True
  | Some i => ValidateIdentity (cert m) i leaf = (true, None)
  end.

(** The value [verifyChains] returns is the one assigned in the last
    iteration. *)
Definition lastExpiration (certChains : list (list Certificate))
    (expiration : option Time) : option Time :=
  fold_left (fun _ chain => option_map NotAfter (chainLeaf chain))
            certChains expiration.

(** *** authenticate *)

(** The loop of the callback that parses the raw certificates into [chain]. *)
Fixpoint parseChain (rawCerts : list (list byte)) : M (list Certificate) :=
  match rawCerts with
  | [] => ret []
  | rawCert :: rest =>
      match x509_ParseCertificate rawCert with
      | inl err => throw (CertificateParseError err)
      | inr cert => chain <- parseChain rest ;; ret (cert :: chain)
      end
  end.

(** The [VerifyPeerCertificate] closure of the [tls.Config]. It captures
    [expiration] (the variable [expirationTime] of [authenticate]), which is
    threaded through here. When [verifyPeerCertificate] returns an error its
    pointer result is nil, the variable keeps its value and the error is
    returned. Dereferencing a nil [expirationTime] panics. *)
Definition VerifyPeerCertificate (m : mutualAuthHandler) (ar : authRequest)
    (caBundle : CertPool) (rawCerts : list (list byte))
    (expiration : option Time) : M (option Time) :=
  chain <- parseChain rawCerts ;;
  peerExpirationTime <-
    verifyPeerCertificate m (Some (remoteIdentity ar)) caBundle [chain] ;;
  match peerExpirationTime with
  | Some peer =>
      match expiration with
      | None => panic
      | Some current =>
          if Before peer current then ret (Some peer) else ret (Some current)
      end
  | None => ret expiration
  end.

(** [tlsConn.Handshake()]: the library follows its script and calls back. *)
Fixpoint Handshake (m : mutualAuthHandler) (ar : authRequest)
    (caBundle : CertPool) (script : HandshakeScript)
    (expiration : option Time) : M (option Time) :=
  match script with
  | HsDone => ret expiration
  | HsFail err => throw err
  | HsGetClientCertificate next =>
      emit EvGetClientCertificate ;;
      Handshake m ar caBundle next expiration
  | HsVerifyPeerCertificate rawCerts next =>
      expiration' <- VerifyPeerCertificate m ar caBundle rawCerts expiration ;;
      Handshake m ar caBundle next expiration'
  end.

(** The raw certificates the library hands to [VerifyPeerCertificate] in
    the course of a handshake, one entry per call. *)
Fixpoint peerCertificates (script : HandshakeScript)
    : list (list (list byte)) :=
  match script with
  | HsDone | HsFail _ => []
  | HsGetClientCertificate next => peerCertificates next
  | HsVerifyPeerCertificate rawCerts next => rawCerts :: peerCertificates next
  end.

(** A peer leaf accepted by the callback for the raw certificates it was
    given. *)
Definition verifiedPeerLeaf (m : mutualAuthHandler) (ar : authRequest)
    (caBundle : CertPool) (rawCerts : list (list byte))
    (leaf : Certificate) : Prop :=
  exists chain,
    outcome (parseChain rawCerts) = Return chain /\
    chainLeaf chain = Some leaf /\
    x509_Verify leaf (chainOptions caBundle chain) = None /\
    ValidateIdentity (cert m) (remoteIdentity ar) leaf = (true, None).

(** The end of [authenticate], after the handshake returned no error. *)
Definition authResult (expiration : option Time) : M authResponse :=
  match expiration with
  | None => throw NoExpirationDetermined
  | Some t => ret {| expirationTime := t |}
  end.

Definition authenticate (m : mutualAuthHandler) (ar : option authRequest)
    : M authResponse :=
  match ar with
  | None => throw InvalidRequest
  | Some ar =>
      let port := MutualAuthListenerPort (cfg m) in
      emit (EvGetCertificateForIdentity (localIdentity ar)) ;;
      match GetCertificateForIdentity (cert m) (localIdentity ar) with
      | inl err => throw (CertificateUnavailable (localIdentity ar) err)
      | inr clientCert =>
          emit EvGetTrustBundle ;;
          match GetTrustBundle (cert m) with
          | inl err => throw (TrustBundleUnavailable err)
          | inr caBundle =>
              emit (EvDial (remoteNodeIP ar) port) ;;
              match net_Dial (remoteNodeIP ar) port with
              | inl err => throw (ConnectionFailed (remoteNodeIP ar) port err)
              | inr conn =>
                  defer (EvConnClose conn)
                    match Leaf clientCert with
                    | None => panic
                    | Some localLeaf =>
                        emit (EvNumericIdentityToSNI (remoteIdentity ar)) ;;
                        let serverName :=
                          NumericIdentityToSNI (cert m) (remoteIdentity ar) in
                        defer (EvTLSClose conn)
                          (emit (EvHandshake conn serverName) ;;
                           expiration <-
                             wrapError HandshakeFailed
                               (Handshake m ar caBundle
                                  (tls_Handshake conn serverName)
                                  (Some (NotAfter localLeaf))) ;;
                           authResult expiration)
                    end
              end
          end
      end
  end.

(** *** The listener *)

Inductive LoopStatus : Type :=
| Returned
| Accepting.

(** The loop leaves on the first return of [Accept] that is the closed
    socket, and only there. *)
Definition isClosedError (res : AcceptResult) : bool :=
  match res with
  | AcceptFailed err => errors_Is_ErrClosed err
  | Accepted _ => false
  end.

(** One iteration of the accept loop on one return of [Accept]. *)
Definition acceptOnce (res : AcceptResult) : list Event * LoopStatus :=
  match res with
  | AcceptFailed err =>
      if errors_Is_ErrClosed err
      then ([EvAccept; EvLog ErrorLevel "Failed to accept connection";
             EvLog InfoLevel "mTLS listener socket got closed"], Returned)
      else ([EvAccept; EvLog ErrorLevel "Failed to accept connection"],
            Accepting)
  | Accepted conn => ([EvAccept; EvGoHandleConnection conn], Accepting)
  end.

(** The loop over the successive returns of [Accept]; when they are used up
    the loop is blocked in [Accept], still [Accepting]. *)
Fixpoint acceptLoop (accepts : list AcceptResult) : list Event * LoopStatus :=
  match accepts with
  | [] => ([], Accepting)
  | res :: rest =>
      match acceptOnce res with
      | (tr, Returned) => (tr, Returned)
      | (tr, Accepting) => let (tr', st) := acceptLoop rest in (tr ++ tr', st)
      end
  end.

(** [listenForConnections] up to the readiness signal. *)
Definition listen (m : mutualAuthHandler) : M unit :=
  let port := MutualAuthListenerPort (cfg m) in
  emit (EvListen port) ;;
  match net_Listen port with
  | Some err => emit (EvLog FatalLevel "Failed to start mTLS listener") ;; fatal
  | None =>
      emit (EvLog InfoLevel "Started mTLS listener") ;;
      emit EvReady
  end.

Definition listenForConnections (m : mutualAuthHandler)
    (accepts : list AcceptResult) : M LoopStatus :=
  listen m ;;
  match acceptLoop accepts with
  | (tr, Returned) => (tr ++ [EvCancel], Return Returned)
  | (tr, Accepting) => (tr, Return Accepting)
  end.

(** [onStart] returns once the listener goroutine has signalled readiness. *)
Definition onStart (m : mutualAuthHandler) : M unit :=
  emit (EvLog InfoLevel "Starting mTLS auth handler") ;;
  listen m.

Definition onStop (m : mutualAuthHandler) : M unit :=
  emit (EvLog InfoLevel "Stopping mTLS auth handler") ;;
  emit EvCancel.

(** *** newMTLSAuthHandler *)

Inductive HookFunc : Type :=
| mtls_onStart (m : mutualAuthHandler)
| mtls_onStop (m : mutualAuthHandler).

Record Hook : Type := mkHook {
  OnStart : HookFunc;
  OnStop : HookFunc
}.

(** [hive.Lifecycle]: the hooks appended so far. *)
Definition Lifecycle : Type := list Hook.

Definition Append (lc : Lifecycle) (h : Hook) : Lifecycle := lc ++ [h].

Definition runHook (f : HookFunc) : M unit :=
  match f with
  | mtls_onStart m => onStart m
  | mtls_onStop m => onStop m
  end.

(** Starting the lifecycle runs the start hooks in order. *)
Fixpoint Start (lc : Lifecycle) : M unit :=
  match lc with
  | [] => ret tt
  | h :: rest => runHook (OnStart h) ;; Start rest
  end.

Record mtlsParams : Type := mkMtlsParams {
  CertificateProvider : option certs_CertificateProvider
}.

Record authHandlerResult : Type := mkAuthHandlerResult {
  AuthHandler : option mutualAuthHandler
}.

(** The constructor returns its result and the lifecycle it was given,
    with the hooks it appended. *)
Definition newMTLSAuthHandler (lc : Lifecycle) (config : MutualAuthConfig)
    (params : mtlsParams) : M (Lifecycle * authHandlerResult) :=
  if MutualAuthListenerPort config =? 0
  then
    emit (EvLog InfoLevel
            "mutual authentication handler is disabled as no port is configured") ;;
    ret (lc, {| AuthHandler := None |})
  else
    match CertificateProvider params with
    | None =>
        emit (EvLog FatalLevel
                "No certificate provider configured, but one is required. Please check if the spire flags are configured.") ;;
        fatal
    | Some provider =>
        let mtls := {| cfg := config; cert := provider |} in
        ret (Append lc {| OnStart := mtls_onStart mtls; OnStop := mtls_onStop mtls |},
             {| AuthHandler := Some mtls |})
    end.

End Handler.

(** ** The inbound side *)

(** What crypto/tls does during the server's [HandshakeContext], seen from
    the [GetCertificate] callback of the [tls.Config]: on the ClientHello it
    asks for the certificate to present for the requested server name (an
    error of the callback aborts the handshake with that error); verifying
    the client certificate against [ClientCAs] is the library's own work,
    and shows here as failure or completion. *)
Inductive ServerHandshakeScript : Type :=
| SrvDone
| SrvFail (err : error)
| SrvGetCertificate (serverName : string) (next : ServerHandshakeScript).

Definition UnknownSNI (serverName : string) (err : error) : error :=
  fmt_Errorf_w "failed to get identity for SNI %s: %w" [ArgS serverName] err.

(** [GetCertificateForIncomingConnection], on [info.ServerName]. The
    result of the provider's [GetCertificateForIdentity] is returned as it
    is. *)
Definition GetCertificateForIncomingConnection (m : mutualAuthHandler)
    (serverName : string) : M tls_Certificate :=
  emit (EvLog DebugLevel "Got new TLS connection") ;;
  match SNIToNumericIdentity (cert m) serverName with
  | inl err => throw (UnknownSNI serverName err)
  | inr id =>
      emit (EvGetCertificateForIdentity id) ;;
      match GetCertificateForIdentity (cert m) id with
      | inl err => throw err
      | inr certificate => ret certificate
      end
  end.

(** [tlsConn.HandshakeContext(ctx)] of the server connection. *)
Fixpoint HandshakeContext (m : mutualAuthHandler)
    (script : ServerHandshakeScript) : M unit :=
  match script with
  | SrvDone => ret tt
  | SrvFail err => throw err
  | SrvGetCertificate serverName next =>
      GetCertificateForIncomingConnection m serverName ;;
      HandshakeContext m next
  end.

(** [if err := ...; err != nil { m.log.WithError(err).Error(msg) }] at the
    end of a function without results. *)
Definition logError {A : Type} (msg : string) (c : M A) : M unit :=
  match c with
  | (tr, Return _) => (tr, Return tt)
  | (tr, Error _) => (tr ++ [EvLog ErrorLevel msg], Return tt)
  | (tr, Panic) => (tr, Panic)
  | (tr, Fatal) => (tr, Fatal)
  end.

(** [handleConnection]; [script] is what the library does on [conn]. The
    trust bundle becomes the [ClientCAs] of the library. *)
Definition handleConnection (m : mutualAuthHandler) (conn : Conn)
    (script : ServerHandshakeScript) : M unit :=
  defer (EvConnClose conn)
    (emit EvGetTrustBundle ;;
     match GetTrustBundle (cert m) with
     | inl err => emit (EvLog ErrorLevel "failed to get CA bundle")
     | inr caBundle =>
         defer (EvTLSClose conn)
           (logError "failed to perform TLS handshake"
              (HandshakeContext m script))
     end).

(** ** Observations on traces and inputs *)

Definition isClose (ev : Event) : bool :=
  match ev with
  | EvConnClose _ | EvTLSClose _ => true
  | _ => false
  end.

Definition isReady (ev : Event) : bool :=
  match ev with
  | EvReady => true
  | _ => false
  end.

Definition isAccept (ev : Event) : bool :=
  match ev with
  | EvAccept => true
  | _ => false
  end.

Definition isCancel (ev : Event) : bool :=
  match ev with
  | EvCancel => true
  | _ => false
  end.

Definition isVerify (ev : Event) : bool :=
  match ev with
  | EvVerify _ _ => true
  | _ => false
  end.

Definition isCertificateLookup (ev : Event) : bool :=
  match ev with
  | EvGetCertificateForIdentity _ => true
  | _ => false
  end.

(** The events of the verification callbacks of a handshake. *)
Definition isCallbackEvent (ev : Event) : bool :=
  match ev with
  | EvLog DebugLevel _ | EvValidateIdentity _ _ | EvVerify _ _
  | EvGetClientCertificate => true
  | _ => false
  end.

(** The connections handed to a [handleConnection] goroutine, in order. *)
Definition handledConnections (tr : list Event) : list Conn :=
  flat_map (fun ev => match ev with
                      | EvGoHandleConnection conn => [conn]
                      | _ => []
                      end) tr.

(** The connections [Accept] returned before it first returned the closed
    socket. *)
Fixpoint acceptedBeforeClose (accepts : list AcceptResult) : list Conn :=
  match accepts with
  | [] => []
  | Accepted conn :: rest => conn :: acceptedBeforeClose rest
  | AcceptFailed err :: rest =>
      if errors_Is_ErrClosed err then [] else acceptedBeforeClose rest
  end.

(** A path validation recorded in a trace is well formed for a trust
    bundle: the certificate verified is not flagged as CA, the roots are the
    bundle, and every intermediate is flagged as CA. *)
Definition verifyWellFormed (caBundle : CertPool) (ev : Event) : Prop :=
  match ev with
  | EvVerify leaf opts =>
      IsCA leaf = false /\ Roots opts = caBundle /\
      forallb IsCA (Intermediates opts) = true
  | _ => True
  end.

(** The errors [verifyPeerCertificate] builds. *)
Inductive verifierError : error -> Prop :=
| VE_empty : verifierError EmptyChainList
| VE_missing_leaf : verifierError MissingLeafCertificate
| VE_chain (err : error) : verifierError (ChainVerificationFailed err)
| VE_identity (err : error) : verifierError (IdentityValidationError err)
| VE_mismatch : verifierError IdentityMismatch.

Section Acceptance.

Context {go : GoRuntime}.

(** A chain the verifier accepts: it has a leaf, the leaf passes path
    validation with the chain's intermediates, and the identity check
    accepts it or is skipped. *)
Definition chainAccepted (m : mutualAuthHandler) (id : option NumericIdentity)
    (caBundle : CertPool) (chain : list Certificate) : Prop :=
  exists leaf,
    chainLeaf chain = Some leaf /\
    x509_Verify leaf (chainOptions caBundle chain) = None /\
    identityAccepted m id leaf.

End Acceptance.

(** ** A concrete deployment *)

Module Scenario.

Fixpoint bytes_eqb (a b : list byte) : bool :=
  match a, b with
  | [], [] => true
  | x :: a', y :: b' => Byte.eqb x y && bytes_eqb a' b'
  | _, _ => false
  end.

Definition rootCA : Certificate :=
  {| Raw := [x01]; IsCA := true; NotAfter := 2208988800; URIs := [] |}.

Definition intermediateCA : Certificate :=
  {| Raw := [x02]; IsCA := true; NotAfter := 2051222400; URIs := [] |}.

(** Identity 5, expiring 2030-01-01. *)
Definition localLeaf : Certificate :=
  {| Raw := [x05]; IsCA := false; NotAfter := 1893456000;
     URIs := ["spiffe://spiffe.cilium/identity/5"] |}.

(** Identity 10, expiring 2029-06-01. *)
Definition remoteLeaf : Certificate :=
  {| Raw := [x0a]; IsCA := false; NotAfter := 1874966400;
     URIs := ["spiffe://spiffe.cilium/identity/10"] |}.

(** Identity 10 again, a certificate that expires 2031-01-01. *)
Definition laterLeaf : Certificate :=
  {| Raw := [x0b]; IsCA := false; NotAfter := 1924992000;
     URIs := ["spiffe://spiffe.cilium/identity/10"] |}.

Definition issued : list Certificate :=
  [rootCA; intermediateCA; localLeaf; remoteLeaf; laterLeaf].

Definition spiffeID (id : NumericIdentity) : string :=
  if N.eqb id 5 then "spiffe://spiffe.cilium/identity/5"
  else if N.eqb id 10 then "spiffe://spiffe.cilium/identity/10"
  else "spiffe://spiffe.cilium/identity/unknown".

(** A runtime in which the remote node at any address presents
    [remoteLeaf] with its intermediate, and a chain is trusted when the
    roots hold [rootCA]. *)
Definition runtime : GoRuntime :=
  {| x509_ParseCertificate := fun raw =>
       match find (fun c => bytes_eqb (Raw c) raw) issued with
       | Some c => inr c
       | None => inl (errors_New "x509: malformed certificate")
       end;
     x509_Verify := fun leaf opts =>
       if existsb (fun r => bytes_eqb (Raw r) (Raw rootCA)) (Roots opts)
       then None
       else Some (errors_New "x509: certificate signed by unknown authority");
     net_Dial := fun ip port => inr 1%N;
     tls_Handshake := fun conn serverName =>
       HsVerifyPeerCertificate [Raw remoteLeaf; Raw intermediateCA]
         (HsGetClientCertificate HsDone);
     net_Listen := fun port => None;
     NumericIdentity_String := fun id => spiffeID id |}.

Definition provider : certs_CertificateProvider :=
  {| GetTrustBundle := inr [rootCA];
     GetCertificateForIdentity := fun id => inr {| Leaf := Some localLeaf |};
     ValidateIdentity := fun id leaf =>
       (existsb (String.eqb (spiffeID id)) (URIs leaf), None);
     NumericIdentityToSNI := fun id => spiffeID id;
     SNIToNumericIdentity := fun sni =>
       if String.eqb sni (spiffeID 5%N) then inr 5%N
       else if String.eqb sni (spiffeID 10%N) then inr 10%N
       else inl (errors_New "unknown identity") |}.

(** A provider whose identity validation itself fails. *)
Definition brokenProvider : certs_CertificateProvider :=
  {| GetTrustBundle := inr [rootCA];
     GetCertificateForIdentity := fun id => inr {| Leaf := Some localLeaf |};
     ValidateIdentity := fun id leaf =>
       (false, Some (errors_New "no URI SAN"));
     NumericIdentityToSNI := fun id => spiffeID id;
     SNIToNumericIdentity := fun sni => inl (errors_New "unknown identity") |}.

Definition handler : mutualAuthHandler :=
  {| cfg := {| MutualAuthListenerPort := 4250 |}; cert := provider |}.

Definition brokenHandler : mutualAuthHandler :=
  {| cfg := {| MutualAuthListenerPort := 4250 |}; cert := brokenProvider |}.

Definition request : authRequest :=
  {| localIdentity := 5%N; remoteIdentity := 10%N; remoteNodeIP := "10.0.0.2" |}.

End Scenario.

Import Scenario.

(** ** Deployments in which something is missing *)

Module Failures.

(** Nothing answers: dialing and listening fail. *)
Definition offlineRuntime : GoRuntime :=
  {| x509_ParseCertificate := x509_ParseCertificate (GoRuntime := runtime);
     x509_Verify := x509_Verify (GoRuntime := runtime);
     net_Dial := fun ip port =>
       inl (net_OpError "dial" (errors_New "connection refused"));
     tls_Handshake := tls_Handshake (GoRuntime := runtime);
     net_Listen := fun port =>
       Some (net_OpError "listen" (errors_New "address already in use"));
     NumericIdentity_String := spiffeID |}.

(** The remote node sends a certificate that does not parse. *)
Definition garbledRuntime : GoRuntime :=
  {| x509_ParseCertificate := x509_ParseCertificate (GoRuntime := runtime);
     x509_Verify := x509_Verify (GoRuntime := runtime);
     net_Dial := net_Dial (GoRuntime := runtime);
     tls_Handshake := fun conn serverName =>
       HsVerifyPeerCertificate [Raw remoteLeaf; [xff]; Raw intermediateCA]
         (HsGetClientCertificate HsDone);
     net_Listen := net_Listen (GoRuntime := runtime);
     NumericIdentity_String := spiffeID |}.

(** A provider without certificates and without a trust bundle. *)
Definition emptyProvider : certs_CertificateProvider :=
  {| GetTrustBundle := inl (errors_New "no trust bundle");
     GetCertificateForIdentity := fun id => inl (errors_New "no SVID found");
     ValidateIdentity := fun id leaf => (false, None);
     NumericIdentityToSNI := spiffeID;
     SNIToNumericIdentity := fun sni => inl (errors_New "unknown identity") |}.

(** A provider with certificates but no trust bundle. *)
Definition bundlelessProvider : certs_CertificateProvider :=
  {| GetTrustBundle := inl (errors_New "no trust bundle");
     GetCertificateForIdentity := GetCertificateForIdentity provider;
     ValidateIdentity := ValidateIdentity provider;
     NumericIdentityToSNI := spiffeID;
     SNIToNumericIdentity := SNIToNumericIdentity provider |}.

(** A provider whose certificates come without a parsed leaf. *)
Definition leaflessProvider : certs_CertificateProvider :=
  {| GetTrustBundle := inr [rootCA];
     GetCertificateForIdentity := fun id => inr {| Leaf := None |};
     ValidateIdentity := ValidateIdentity provider;
     NumericIdentityToSNI := spiffeID;
     SNIToNumericIdentity := SNIToNumericIdentity provider |}.

(** A provider whose trust bundle does not hold the root of the remote
    certificates. *)
Definition foreignProvider : certs_CertificateProvider :=
  {| GetTrustBundle := inr [intermediateCA];
     GetCertificateForIdentity := GetCertificateForIdentity provider;
     ValidateIdentity := ValidateIdentity provider;
     NumericIdentityToSNI := spiffeID;
     SNIToNumericIdentity := SNIToNumericIdentity provider |}.

Definition handlerOf (p : certs_CertificateProvider) : mutualAuthHandler :=
  {| cfg := {| MutualAuthListenerPort := 4250 |}; cert := p |}.

End Failures.

Import Failures.

(** ** Reasoning about computations *)

Section MonadFacts.

Context {A B : Type}.

Lemma bind_Return_inv (c : M A) (k : A -> M B) (b : B) :
  outcome (bind c k) = Return b ->
  exists a, outcome c = Return a /\ outcome (k a) = Return b.
Proof.
  destruct c as [tr [a|e| |]]; simpl; try discriminate.
  intros H. exists a. split; [reflexivity|].
  destruct (k a) as [tr' r]. exact H.
Qed.

Lemma bind_Return (tr : list Event) (a : A) (k : A -> M B) :
  bind (tr, Return a) k = (tr ++ trace (k a), outcome (k a)).
Proof. simpl. destruct (k a); reflexivity. Qed.

Lemma bind_of_Return (c : M A) (k : A -> M B) (a : A) :
  outcome c = Return a ->
  bind c k = (trace c ++ trace (k a), outcome (k a)).
Proof.
  destruct c as [tr r]; simpl. intros ->. destruct (k a); reflexivity.
Qed.

Lemma bind_of_Error (c : M A) (k : A -> M B) (e : error) :
  outcome c = Error e -> bind c k = (trace c, Error e).
Proof. destruct c as [tr r]; simpl. intros ->. reflexivity. Qed.

Lemma bind_not_Return (c : M A) (k : A -> M B) :
  (forall a, outcome c <> Return a) ->
  forall b, outcome (bind c k) <> Return b.
Proof.
  intros Hc b Hb. apply bind_Return_inv in Hb as (a & Ha & _).
  exact (Hc a Ha).
Qed.

Lemma bind_ext (c : M A) (k k' : A -> M B) :
  (forall a, k a = k' a) -> bind c k = bind c k'.
Proof.
  intros Hk. destruct c as [tr [a|e| |]]; simpl; try reflexivity.
  rewrite Hk. reflexivity.
Qed.

End MonadFacts.

Lemma bind_assoc {A B C : Type} (c : M A) (k : A -> M B) (h : B -> M C) :
  bind (bind c k) h = bind c (fun a => bind (k a) h).
Proof.
  destruct c as [tr [a|e| |]]; simpl; try reflexivity.
  destruct (k a) as [tr' [b|e| |]]; simpl; try reflexivity.
  destruct (h b) as [tr'' r]. rewrite app_assoc. reflexivity.
Qed.

Lemma defer_outcome {A : Type} (ev : Event) (body : M A) :
  outcome (defer ev body) = outcome body.
Proof. destruct body as [tr [a|e| |]]; reflexivity. Qed.

Lemma wrapError_Return_inv {A : Type} (f : error -> error) (c : M A) (a : A) :
  outcome (wrapError f c) = Return a -> outcome c = Return a.
Proof. destruct c as [tr [a'|e| |]]; simpl; congruence. Qed.

Lemma emit_bind {B : Type} (ev : Event) (k : M B) :
  bind (emit ev) (fun _ => k) = (ev :: trace k, outcome k).
Proof. unfold emit. rewrite bind_Return. reflexivity. Qed.

Lemma outcome_emit_bind {B : Type} (ev : Event) (k : M B) :
  outcome (bind (emit ev) (fun _ => k)) = outcome k.
Proof. rewrite emit_bind. reflexivity. Qed.

(** ** Properties *)

Section Properties.

Context {go : GoRuntime}.

(** *** The split of a chain *)

Lemma splitChain_fst (chain : list Certificate) :
  forall opts leaf,
    fst (splitChain chain opts leaf) =
    {| Roots := Roots opts;
       Intermediates := Intermediates opts ++ filter IsCA chain |}.
Proof.
  induction chain as [|c rest IH]; intros [roots inter] leaf; simpl.
  - rewrite app_nil_r. reflexivity.
  - destruct (IsCA c); rewrite IH; simpl; [|reflexivity].
    unfold AddCert. rewrite <- app_assoc. reflexivity.
Qed.

Lemma splitChain_snd_options (chain : list Certificate) :
  forall opts opts' leaf,
    snd (splitChain chain opts leaf) = snd (splitChain chain opts' leaf).
Proof.
  induction chain as [|c rest IH]; intros opts opts' leaf; simpl;
    [reflexivity|].
  destruct (IsCA c); apply IH.
Qed.

Lemma splitChain_eq (caBundle : CertPool) (chain : list Certificate) :
  splitChain chain
    {| Roots := caBundle; Intermediates := x509_NewCertPool |} None =
  (chainOptions caBundle chain, chainLeaf chain).
Proof.
  unfold chainOptions, chainLeaf.
  rewrite (splitChain_snd_options chain
             {| Roots := x509_NewCertPool; Intermediates := x509_NewCertPool |}
             {| Roots := caBundle; Intermediates := x509_NewCertPool |}).
  apply surjective_pairing.
Qed.

Lemma chainOptions_eq (caBundle : CertPool) (chain : list Certificate) :
  chainOptions caBundle chain =
  {| Roots := caBundle; Intermediates := filter IsCA chain |}.
Proof. unfold chainOptions. rewrite splitChain_fst. reflexivity. Qed.

Lemma splitChain_snd_all_CA (chain : list Certificate) :
  forall opts leaf,
    forallb IsCA chain = true -> snd (splitChain chain opts leaf) = leaf.
Proof.
  induction chain as [|c rest IH]; intros opts leaf Hall; simpl in *;
    [reflexivity|].
  apply andb_prop in Hall as [Hc Hrest]. rewrite Hc. apply IH, Hrest.
Qed.

Lemma splitChain_snd_app (pre post : list Certificate) :
  forall opts leaf,
    snd (splitChain (pre ++ post) opts leaf) =
    snd (splitChain post opts (snd (splitChain pre opts leaf))).
Proof.
  induction pre as [|c rest IH]; intros opts leaf; simpl; [reflexivity|].
  destruct (IsCA c).
  - rewrite IH. apply splitChain_snd_options.
  - apply IH.
Qed.

Lemma splitChain_snd_inv (chain : list Certificate) :
  forall opts leaf0 l,
    snd (splitChain chain opts leaf0) = Some l ->
    (leaf0 = Some l /\ forallb IsCA chain = true) \/
    exists pre post,
      chain = pre ++ l :: post /\ IsCA l = false /\ forallb IsCA post = true.
Proof.
  induction chain as [|c rest IH]; intros opts leaf0 l H; simpl in *.
  - left. split; [exact H|reflexivity].
  - destruct (IsCA c) eqn:Hc.
    + apply IH in H as [[H0 Hall]|(pre & post & Heq & Hl & Hpost)].
      * left. split; assumption.
      * right. exists (c :: pre), post. subst rest. repeat split; assumption.
    + apply IH in H as [[H0 Hall]|(pre & post & Heq & Hl & Hpost)].
      * right. injection H0 as <-. exists [], rest. repeat split; assumption.
      * right. exists (c :: pre), post. subst rest. repeat split; assumption.
Qed.

(** The leaf of a chain is its last certificate that is not flagged as CA. *)
Lemma chainLeaf_last_non_CA (pre post : list Certificate) (l : Certificate) :
  IsCA l = false -> forallb IsCA post = true ->
  chainLeaf (pre ++ l :: post) = Some l.
Proof.
  intros Hl Hpost. unfold chainLeaf. rewrite splitChain_snd_app. simpl.
  rewrite Hl. apply splitChain_snd_all_CA, Hpost.
Qed.

Lemma chainLeaf_Some_inv (chain : list Certificate) (l : Certificate) :
  chainLeaf chain = Some l ->
  exists pre post,
    chain = pre ++ l :: post /\ IsCA l = false /\ forallb IsCA post = true.
Proof.
  intros H. apply splitChain_snd_inv in H as [[H _]|H]; [discriminate|exact H].
Qed.

Lemma splitChain_snd_Some (chain : list Certificate) :
  forall opts c, exists l, snd (splitChain chain opts (Some c)) = Some l.
Proof.
  induction chain as [|d rest IH]; intros opts c; simpl.
  - exists c. reflexivity.
  - destruct (IsCA d); apply IH.
Qed.

Lemma chainLeaf_None_iff (chain : list Certificate) :
  chainLeaf chain = None <-> forallb IsCA chain = true.
Proof.
  split.
  - intros Hnone. apply forallb_forall. intros c Hin.
    destruct (IsCA c) eqn:Hc; [reflexivity|].
    apply in_split in Hin as (l1 & l2 & ->).
    unfold chainLeaf in Hnone. rewrite splitChain_snd_app in Hnone.
    simpl in Hnone. rewrite Hc in Hnone.
    destruct (splitChain_snd_Some l2
                {| Roots := x509_NewCertPool;
                   Intermediates := x509_NewCertPool |} c) as [l Hl].
    congruence.
  - intros Hall. unfold chainLeaf. apply splitChain_snd_all_CA, Hall.
Qed.

(** *** The verification of a chain *)

Lemma verifyChain_eq (m : mutualAuthHandler) (id : option NumericIdentity)
    (caBundle : CertPool) (chain : list Certificate) :
  verifyChain m id caBundle chain =
  match chainLeaf chain with
  | None => throw MissingLeafCertificate
  | Some leaf =>
      emit (EvVerify leaf (chainOptions caBundle chain)) ;;
      match x509_Verify leaf (chainOptions caBundle chain) with
      | Some err => throw (ChainVerificationFailed err)
      | None =>
          validateSAN m id leaf ;;
          emit (EvLog DebugLevel "Validated certificate") ;;
          ret (NotAfter leaf)
      end
  end.
Proof. unfold verifyChain. rewrite splitChain_eq. reflexivity. Qed.

Lemma validateSAN_Return_inv (m : mutualAuthHandler)
    (id : option NumericIdentity) (leaf : Certificate) (u : unit) :
  outcome (validateSAN m id leaf) = Return u -> identityAccepted m id leaf.
Proof.
  destruct id as [i|]; [|intros _; exact I].
  unfold validateSAN, identityAccepted. rewrite !outcome_emit_bind.
  destruct (ValidateIdentity (cert m) i leaf) as [[|] [err|]];
    simpl; congruence.
Qed.

Lemma validateSAN_accepted (m : mutualAuthHandler)
    (id : option NumericIdentity) (leaf : Certificate) :
  identityAccepted m id leaf -> outcome (validateSAN m id leaf) = Return tt.
Proof.
  destruct id as [i|]; [|reflexivity].
  unfold validateSAN, identityAccepted. intros Hid.
  rewrite !outcome_emit_bind, Hid. reflexivity.
Qed.

Lemma verifyChain_Return_inv (m : mutualAuthHandler)
    (id : option NumericIdentity) (caBundle : CertPool)
    (chain : list Certificate) (t : Time) :
  outcome (verifyChain m id caBundle chain) = Return t ->
  exists leaf,
    chainLeaf chain = Some leaf /\
    x509_Verify leaf (chainOptions caBundle chain) = None /\
    identityAccepted m id leaf /\
    t = NotAfter leaf.
Proof.
  rewrite verifyChain_eq.
  destruct (chainLeaf chain) as [leaf|]; [|discriminate].
  rewrite outcome_emit_bind.
  destruct (x509_Verify leaf (chainOptions caBundle chain)) as [err|] eqn:Hok;
    [discriminate|].
  intros H. apply bind_Return_inv in H as (u & Hsan & H).
  rewrite outcome_emit_bind in H. injection H as <-.
  exists leaf. split; [reflexivity|]. split; [exact Hok|].
  split; [|reflexivity]. eapply validateSAN_Return_inv, Hsan.
Qed.

Lemma verifyChain_verified (m : mutualAuthHandler)
    (id : option NumericIdentity) (caBundle : CertPool)
    (chain : list Certificate) (leaf : Certificate) :
  chainLeaf chain = Some leaf ->
  x509_Verify leaf (chainOptions caBundle chain) = None ->
  verifyChain m id caBundle chain =
  (emit (EvVerify leaf (chainOptions caBundle chain)) ;;
   validateSAN m id leaf ;;
   emit (EvLog DebugLevel "Validated certificate") ;;
   ret (NotAfter leaf)).
Proof. intros Hleaf Hok. rewrite verifyChain_eq, Hleaf, Hok. reflexivity. Qed.

Lemma verifyChain_accepted (m : mutualAuthHandler)
    (id : option NumericIdentity) (caBundle : CertPool)
    (chain : list Certificate) (leaf : Certificate) :
  chainLeaf chain = Some leaf ->
  x509_Verify leaf (chainOptions caBundle chain) = None ->
  identityAccepted m id leaf ->
  outcome (verifyChain m id caBundle chain) = Return (NotAfter leaf).
Proof.
  intros Hleaf Hok Hid. rewrite (verifyChain_verified m id _ _ Hleaf Hok).
  rewrite outcome_emit_bind.
  rewrite (bind_of_Return _ _ (validateSAN_accepted m id leaf Hid)).
  reflexivity.
Qed.

Lemma verifyPeerCertificate_nonempty (m : mutualAuthHandler)
    (id : option NumericIdentity) (caBundle : CertPool)
    (certChains : list (list Certificate)) :
  certChains <> [] ->
  verifyPeerCertificate m id caBundle certChains =
  verifyChains m id caBundle certChains None.
Proof.
  intros Hne. unfold verifyPeerCertificate.
  destruct certChains as [|c rest]; [contradiction|]. reflexivity.
Qed.

(** The length test of [verifyPeerCertificate] on a list that visibly has
    a chain in it. *)
Ltac chains_nonempty :=
  rewrite !verifyPeerCertificate_nonempty
    by first
         [ discriminate
         | let H := fresh in
           intros H; apply app_eq_nil in H as [_ H]; discriminate ].

Lemma verifyChains_app (m : mutualAuthHandler) (id : option NumericIdentity)
    (caBundle : CertPool) (cs1 cs2 : list (list Certificate)) :
  forall expiration,
    verifyChains m id caBundle (cs1 ++ cs2) expiration =
    bind (verifyChains m id caBundle cs1 expiration)
         (verifyChains m id caBundle cs2).
Proof.
  induction cs1 as [|c rest IH]; intros expiration; simpl.
  - destruct (verifyChains m id caBundle cs2 expiration); reflexivity.
  - rewrite bind_assoc. apply bind_ext. intros t. apply IH.
Qed.

Lemma verifyChains_Return_inv (m : mutualAuthHandler)
    (id : option NumericIdentity) (caBundle : CertPool)
    (certChains : list (list Certificate)) :
  forall expiration r,
    outcome (verifyChains m id caBundle certChains expiration) = Return r ->
    Forall (fun chain =>
              exists t, outcome (verifyChain m id caBundle chain) = Return t)
           certChains /\
    r = lastExpiration certChains expiration.
Proof.
  induction certChains as [|c rest IH]; intros expiration r H; simpl in *.
  - injection H as <-. split; [constructor|reflexivity].
  - apply bind_Return_inv in H as (t & Hc & Hrest).
    apply IH in Hrest as [Hall ->]. split.
    + constructor; [exists t; exact Hc|exact Hall].
    + apply verifyChain_Return_inv in Hc as (leaf & Hleaf & _ & _ & ->).
      unfold lastExpiration. simpl. rewrite Hleaf. reflexivity.
Qed.

Lemma verifyChains_replace (m : mutualAuthHandler)
    (id : option NumericIdentity) (caBundle : CertPool)
    (chain chain' : list Certificate) (cs1 cs2 : list (list Certificate)) :
  verifyChain m id caBundle chain = verifyChain m id caBundle chain' ->
  verifyPeerCertificate m id caBundle (cs1 ++ chain :: cs2) =
  verifyPeerCertificate m id caBundle (cs1 ++ chain' :: cs2).
Proof.
  intros Heq.
  chains_nonempty.
  rewrite !verifyChains_app. apply bind_ext. intros e. simpl.
  rewrite Heq. reflexivity.
Qed.

Lemma filter_idempotent {A : Type} (f : A -> bool) (l : list A) :
  filter f (filter f l) = filter f l.
Proof.
  induction l as [|a rest IH]; simpl; [reflexivity|].
  destruct (f a) eqn:Hfa; simpl; [rewrite Hfa, IH|]; auto.
Qed.

Lemma filter_all {A : Type} (f : A -> bool) (l : list A) :
  forallb f l = true -> filter f l = l.
Proof.
  induction l as [|a rest IH]; simpl; [reflexivity|].
  intros H. apply andb_prop in H as [Ha Hrest].
  rewrite Ha, IH by exact Hrest. reflexivity.
Qed.

(** C4. With an empty list of certificate chains [verifyPeerCertificate]
    returns the error "no certificate chains found" (EmptyChainList),
    whatever the handler, the expected identity and the trust bundle are,
    and its trace is empty: no certificate is verified and no identity is
    validated. *)
Theorem verifyPeerCertificate_empty_chain_list :
  forall (m : mutualAuthHandler) (id : option NumericIdentity)
         (caBundle : CertPool),
    verifyPeerCertificate m id caBundle [] = ([], Error EmptyChainList).
Proof. intros m id caBundle. reflexivity. Qed.

(** C6. [authenticate] of a nil request returns the error "authRequest is
    nil" (InvalidRequest) with an empty trace: no certificate-provider call
    and no dial happen. With a request, the first thing that happens is the
    call of [GetCertificateForIdentity]: the nil check comes before it. *)
Theorem authenticate_nil_request :
  forall m : mutualAuthHandler,
    authenticate m None = ([], Error InvalidRequest) /\
    forall ar : authRequest,
      exists rest,
        trace (authenticate m (Some ar)) =
        EvGetCertificateForIdentity (localIdentity ar) :: rest.
Proof.
  intros m. split; [reflexivity|].
  intros ar. unfold authenticate. rewrite emit_bind.
  eexists. reflexivity.
Qed.

(** C7. With listener port 0, [newMTLSAuthHandler] only logs that the
    handler is disabled and returns an empty result (no AuthHandler)
    together with the lifecycle it was given, unchanged: no hook is
    appended. The certificate provider of [params] plays no role (a nil
    provider is not even fatal), no socket is opened by the call, and
    starting the returned lifecycle does what starting the given one did. *)
Theorem newMTLSAuthHandler_disabled :
  forall (lc : Lifecycle) (config : MutualAuthConfig) (params : mtlsParams),
    MutualAuthListenerPort config = 0 ->
    newMTLSAuthHandler lc config params =
      ([EvLog InfoLevel
          "mutual authentication handler is disabled as no port is configured"],
       Return (lc, {| AuthHandler := None |})) /\
    existsb isListen (trace (newMTLSAuthHandler lc config params)) = false /\
    existsb isProviderCall (trace (newMTLSAuthHandler lc config params)) = false /\
    forall lc' res,
      outcome (newMTLSAuthHandler lc config params) = Return (lc', res) ->
      lc' = lc /\ AuthHandler res = None /\ Start lc' = Start lc.
Proof.
  intros lc config params Hport.
  unfold newMTLSAuthHandler. rewrite Hport. simpl.
  split; [reflexivity|]. split; [reflexivity|]. split; [reflexivity|].
  intros lc' res Hres. injection Hres as <- <-.
  repeat split; reflexivity.
Qed.

(** With a port and a provider the constructor does install the handler:
    it appends one hook, and starting that hook opens the listening socket
    on the configured port. *)
Lemma newMTLSAuthHandler_enabled :
  forall (lc : Lifecycle) (config : MutualAuthConfig)
         (provider : certs_CertificateProvider),
    MutualAuthListenerPort config <> 0 ->
    let mtls := {| cfg := config; cert := provider |} in
    newMTLSAuthHandler lc config {| CertificateProvider := Some provider |} =
      ([], Return (lc ++ [ {| OnStart := mtls_onStart mtls;
                              OnStop := mtls_onStop mtls |} ],
                   {| AuthHandler := Some mtls |})) /\
    In (EvListen (MutualAuthListenerPort config))
       (trace (runHook (mtls_onStart mtls))).
Proof.
  intros lc config provider Hport mtls. split.
  - unfold newMTLSAuthHandler.
    destruct (Z.eqb_spec (MutualAuthListenerPort config) 0); [contradiction|].
    reflexivity.
  - simpl. unfold onStart, listen. rewrite emit_bind. right.
    rewrite emit_bind. left. reflexivity.
Qed.

Lemma acceptOnce_status (res : AcceptResult) :
  snd (acceptOnce res) = if isClosedError res then Returned else Accepting.
Proof.
  destruct res as [conn|err]; simpl; [reflexivity|].
  destruct (errors_Is_ErrClosed err); reflexivity.
Qed.

Lemma acceptLoop_status (accepts : list AcceptResult) :
  snd (acceptLoop accepts) =
  if existsb isClosedError accepts then Returned else Accepting.
Proof.
  induction accepts as [|res rest IH]; simpl; [reflexivity|].
  pose proof (acceptOnce_status res) as Hres.
  destruct (acceptOnce res) as [tr st]; simpl in Hres.
  destruct (isClosedError res); subst st; simpl; [reflexivity|].
  destruct (acceptLoop rest) as [tr' st']; simpl in *. exact IH.
Qed.

Lemma acceptLoop_continues (res : AcceptResult) (rest : list AcceptResult) :
  isClosedError res = false ->
  acceptLoop (res :: rest) =
  (fst (acceptOnce res) ++ fst (acceptLoop rest), snd (acceptLoop rest)).
Proof.
  intros Hres. simpl.
  pose proof (acceptOnce_status res) as Hst. rewrite Hres in Hst.
  destruct (acceptOnce res) as [tr st]; simpl in *; subst st.
  destruct (acceptLoop rest); reflexivity.
Qed.

(** C8. For every error [err] returned by [Accept], the iteration of the
    accept loop leaves the loop exactly when [errors.Is(err,
    net.ErrClosed)]; on any other error it logs the failure and goes on
    accepting, so the returns of [Accept] that follow are still served. The
    whole loop has returned exactly when one of the returns of [Accept] was
    the closed socket. *)
Theorem acceptLoop_exits_only_on_ErrClosed :
  forall err : error,
    (snd (acceptOnce (AcceptFailed err)) = Returned <->
     errors_Is_ErrClosed err = true) /\
    (errors_Is_ErrClosed err = false ->
     acceptOnce (AcceptFailed err) =
       ([EvAccept; EvLog ErrorLevel "Failed to accept connection"], Accepting) /\
     forall rest,
       acceptLoop (AcceptFailed err :: rest) =
       ([EvAccept; EvLog ErrorLevel "Failed to accept connection"]
          ++ fst (acceptLoop rest),
        snd (acceptLoop rest))) /\
    forall accepts : list AcceptResult,
      snd (acceptLoop accepts) = Returned <->
      exists e, In (AcceptFailed e) accepts /\ errors_Is_ErrClosed e = true.
Proof.
  intros err. split; [|split].
  - rewrite acceptOnce_status. simpl.
    destruct (errors_Is_ErrClosed err); split; congruence.
  - intros Hopen. split.
    + simpl. rewrite Hopen. reflexivity.
    + intros rest. rewrite acceptLoop_continues by exact Hopen.
      simpl. rewrite Hopen. reflexivity.
  - intros accepts. rewrite acceptLoop_status.
    destruct (existsb isClosedError accepts) eqn:Hex.
    + split; [intros _|reflexivity].
      apply existsb_exists in Hex as (res & Hin & Hres).
      destruct res as [conn|e]; [discriminate|].
      exists e. split; assumption.
    + split; [discriminate|].
      intros (e & Hin & He).
      assert (existsb isClosedError accepts = true) as Hyes.
      { apply existsb_exists. exists (AcceptFailed e). split; assumption. }
      congruence.
Qed.

(** C2 (amended). When [verifyPeerCertificate] succeeds on a list of
    chains, every chain of the list has a leaf that passed path validation,
    and the expiration returned is the [NotAfter] of the leaf of the last
    chain of the list: each iteration overwrites the value of the one
    before, and no minimum is taken. *)
Theorem verifyPeerCertificate_returns_last_expiration :
  forall (m : mutualAuthHandler) (id : option NumericIdentity)
         (caBundle : CertPool) (certChains : list (list Certificate))
         (r : option Time),
    outcome (verifyPeerCertificate m id caBundle certChains) = Return r ->
    exists front lastChain leaf,
      certChains = front ++ [lastChain] /\
      chainLeaf lastChain = Some leaf /\
      r = Some (NotAfter leaf) /\
      Forall (fun chain =>
                exists l, chainLeaf chain = Some l /\
                          x509_Verify l (chainOptions caBundle chain) = None)
             certChains.
Proof.
  intros m id caBundle certChains r H.
  destruct certChains as [|c rest]; [discriminate|].
  rewrite verifyPeerCertificate_nonempty in H by discriminate.
  apply verifyChains_Return_inv in H as [Hall ->].
  assert (Forall (fun chain =>
                    exists l, chainLeaf chain = Some l /\
                              x509_Verify l (chainOptions caBundle chain) = None)
                 (c :: rest)) as Hverified.
  { eapply Forall_impl; [|exact Hall]. intros chain [t Ht].
    apply verifyChain_Return_inv in Ht as (l & Hl & Hok & _).
    exists l. split; assumption. }
  destruct (@exists_last _ (c :: rest)) as (front & lastChain & Heq);
    [discriminate|].
  rewrite Heq in Hverified |- *.
  apply Forall_app in Hverified as Hparts. destruct Hparts as [_ Hlast].
  inversion Hlast as [|x xs (leaf & Hleaf & _) _]; subst.
  exists front, lastChain, leaf.
  split; [reflexivity|]. split; [exact Hleaf|]. split; [|exact Hverified].
  unfold lastExpiration. rewrite fold_left_app. simpl.
  rewrite Hleaf. reflexivity.
Qed.

Lemma verifyChains_skip_identity (m m' : mutualAuthHandler)
    (caBundle : CertPool) (certChains : list (list Certificate)) :
  forall expiration,
    verifyChains m None caBundle certChains expiration =
    verifyChains m' None caBundle certChains expiration /\
    existsb isValidateIdentity
      (trace (verifyChains m None caBundle certChains expiration)) = false.
Proof.
  induction certChains as [|c rest IH]; intros expiration; simpl.
  - split; reflexivity.
  - assert (verifyChain m None caBundle c = verifyChain m' None caBundle c)
      as Hc by (rewrite !verifyChain_eq; reflexivity).
    assert (existsb isValidateIdentity
              (trace (verifyChain m None caBundle c)) = false) as Htr.
    { rewrite verifyChain_eq. destruct (chainLeaf c) as [leaf|]; [|reflexivity].
      rewrite emit_bind. simpl.
      destruct (x509_Verify leaf (chainOptions caBundle c)); reflexivity. }
    split.
    + rewrite Hc. apply bind_ext. intros t. apply IH.
    + destruct (verifyChain m None caBundle c) as [tr [t|e| |]];
        simpl in *; try exact Htr.
      destruct (IH (Some t)) as [_ Hrest].
      destruct (verifyChains m None caBundle rest (Some t)) as [tr' r'].
      simpl in *. rewrite existsb_app, Htr, Hrest. reflexivity.
Qed.

(** C3. Take a chain whose leaf passes path validation against the trust
    bundle, reached after the chains before it were verified. With an
    expected identity [i]: if [ValidateIdentity] returns false (and no
    error), [verifyPeerCertificate] returns the error "unable to validate
    SAN" (IdentityMismatch), and no list of chains that contains this chain
    is ever accepted; if [ValidateIdentity] returns an error, that error is
    returned, wrapped. Without an expected identity the chain is accepted
    with its leaf expiration, [ValidateIdentity] is never called and the
    result does not depend on the provider. *)
Theorem verifyPeerCertificate_identity_check :
  forall (m : mutualAuthHandler) (caBundle : CertPool)
         (chain : list Certificate) (leaf : Certificate),
    chainLeaf chain = Some leaf ->
    x509_Verify leaf (chainOptions caBundle chain) = None ->
    (forall i : NumericIdentity,
        ValidateIdentity (cert m) i leaf = (false, None) ->
        (forall front rest e,
            outcome (verifyChains m (Some i) caBundle front None) = Return e ->
            outcome (verifyPeerCertificate m (Some i) caBundle
                       (front ++ chain :: rest)) = Error IdentityMismatch) /\
        (forall certChains r,
            In chain certChains ->
            outcome (verifyPeerCertificate m (Some i) caBundle certChains)
            <> Return r)) /\
    (forall (i : NumericIdentity) (valid : bool) (err : error),
        ValidateIdentity (cert m) i leaf = (valid, Some err) ->
        forall front rest e,
          outcome (verifyChains m (Some i) caBundle front None) = Return e ->
          outcome (verifyPeerCertificate m (Some i) caBundle
                     (front ++ chain :: rest)) =
          Error (IdentityValidationError err)) /\
    outcome (verifyChain m None caBundle chain) = Return (NotAfter leaf) /\
    (forall certChains,
        existsb isValidateIdentity
          (trace (verifyPeerCertificate m None caBundle certChains)) = false /\
        forall m' : mutualAuthHandler,
          verifyPeerCertificate m None caBundle certChains =
          verifyPeerCertificate m' None caBundle certChains).
Proof.
  intros m caBundle chain leaf Hleaf Hok.
  assert (forall i e0,
             outcome (validateSAN m (Some i) leaf) = Error e0 ->
             outcome (verifyChain m (Some i) caBundle chain) = Error e0)
    as Hchain.
  { intros i e0 Hsan.
    rewrite (verifyChain_verified m (Some i) _ _ Hleaf Hok).
    rewrite outcome_emit_bind.
    rewrite (bind_of_Error _ _ Hsan). reflexivity. }
  assert (forall i e0 front rest e,
             outcome (validateSAN m (Some i) leaf) = Error e0 ->
             outcome (verifyChains m (Some i) caBundle front None) = Return e ->
             outcome (verifyPeerCertificate m (Some i) caBundle
                        (front ++ chain :: rest)) = Error e0) as Hlist.
  { intros i e0 front rest e Hsan Hfront.
    chains_nonempty.
    rewrite verifyChains_app, (bind_of_Return _ _ Hfront). simpl.
    rewrite (bind_of_Error _ _ (Hchain i e0 Hsan)). reflexivity. }
  split; [|split; [|split]].
  - intros i Hfalse.
    assert (outcome (validateSAN m (Some i) leaf) = Error IdentityMismatch)
      as Hsan.
    { unfold validateSAN. rewrite !outcome_emit_bind, Hfalse. reflexivity. }
    split.
    + intros front rest e. apply Hlist, Hsan.
    + intros certChains r Hin Hr.
      destruct certChains as [|c cs]; [contradiction|].
      rewrite verifyPeerCertificate_nonempty in Hr by discriminate.
      apply verifyChains_Return_inv in Hr as [Hall _].
      rewrite Forall_forall in Hall.
      destruct (Hall chain Hin) as [t Ht].
      rewrite (Hchain i _ Hsan) in Ht. discriminate.
  - intros i valid err Herr front rest e Hfront.
    eapply Hlist; [|exact Hfront].
    unfold validateSAN. rewrite !outcome_emit_bind, Herr.
    destruct valid; reflexivity.
  - apply verifyChain_accepted; [exact Hleaf|exact Hok|exact I].
  - intros certChains.
    destruct certChains as [|c cs]; [split; reflexivity|].
    rewrite verifyPeerCertificate_nonempty by discriminate. split.
    + apply (verifyChains_skip_identity m m).
    + intros m'. rewrite verifyPeerCertificate_nonempty by discriminate.
      apply verifyChains_skip_identity.
Qed.

(** C5 (amended). For every chain, the intermediates pool receives
    exactly the certificates flagged as CA, in order, and the leaf is the
    last certificate of the chain that is not flagged as CA; when that is the
    only such certificate, leaf and intermediates together are the whole
    chain. A chain has no leaf exactly when all its certificates are flagged
    as CA, and then (and only then) verification returns "no leaf
    certificate found" (MissingLeafCertificate), before any path validation
    of that chain. *)
Theorem chain_split_by_CA_flag :
  forall (m : mutualAuthHandler) (id : option NumericIdentity)
         (caBundle : CertPool) (chain : list Certificate),
    splitChain chain
      {| Roots := caBundle; Intermediates := x509_NewCertPool |} None =
      ({| Roots := caBundle; Intermediates := filter IsCA chain |},
       chainLeaf chain) /\
    (forall l,
        chainLeaf chain = Some l <->
        exists front back,
          chain = front ++ l :: back /\ IsCA l = false /\
          forallb IsCA back = true) /\
    (forall front l back,
        chain = front ++ l :: back -> IsCA l = false ->
        forallb IsCA front = true -> forallb IsCA back = true ->
        chainLeaf chain = Some l /\
        Permutation chain (l :: filter IsCA chain)) /\
    (chainLeaf chain = None <-> forallb IsCA chain = true) /\
    (outcome (verifyChain m id caBundle chain) = Error MissingLeafCertificate
     <-> forallb IsCA chain = true) /\
    (forallb IsCA chain = true ->
     verifyChain m id caBundle chain = ([], Error MissingLeafCertificate) /\
     forall front rest e,
       outcome (verifyChains m id caBundle front None) = Return e ->
       verifyPeerCertificate m id caBundle (front ++ chain :: rest) =
       (trace (verifyChains m id caBundle front None),
        Error MissingLeafCertificate)).
Proof.
  intros m id caBundle chain.
  assert (forallb IsCA chain = true ->
          verifyChain m id caBundle chain = ([], Error MissingLeafCertificate))
    as Hmissing.
  { intros Hall. rewrite verifyChain_eq.
    apply chainLeaf_None_iff in Hall. rewrite Hall. reflexivity. }
  split; [|split; [|split; [|split; [|split]]]].
  - rewrite splitChain_eq, chainOptions_eq. reflexivity.
  - intros l. split; [apply chainLeaf_Some_inv|].
    intros (front & back & -> & Hl & Hback).
    apply chainLeaf_last_non_CA; assumption.
  - intros front l back -> Hl Hfront Hback. split.
    + apply chainLeaf_last_non_CA; assumption.
    + rewrite filter_app. simpl. rewrite Hl.
      rewrite !filter_all by assumption.
      symmetry. apply Permutation_middle.
  - apply chainLeaf_None_iff.
  - split; [|intros Hall; rewrite (Hmissing Hall); reflexivity].
    intros Herr. apply chainLeaf_None_iff.
    rewrite verifyChain_eq in Herr.
    destruct (chainLeaf chain) as [leaf|]; [exfalso|reflexivity].
    rewrite outcome_emit_bind in Herr.
    destruct (x509_Verify leaf (chainOptions caBundle chain));
      [discriminate|].
    destruct id as [i|]; unfold validateSAN in Herr.
    + rewrite bind_assoc, outcome_emit_bind in Herr.
      rewrite bind_assoc, outcome_emit_bind in Herr.
      destruct (ValidateIdentity (cert m) i leaf) as [[|] [err|]];
        discriminate.
    + discriminate.
  - intros Hall. split; [apply Hmissing, Hall|].
    intros front rest e Hfront.
    chains_nonempty.
    rewrite verifyChains_app, (bind_of_Return _ _ Hfront). simpl.
    rewrite (Hmissing Hall). simpl. rewrite app_nil_r. reflexivity.
Qed.

(** C10. In a chain with several certificates not flagged as CA, the last
    of them ([l], followed only by CA certificates) is the leaf, and the
    earlier ones are ignored: the intermediates pool holds the CA
    certificates only, and the verification of the chain, trace and result,
    is that of the chain without its earlier non-CA certificates, inside any
    list of chains. No error comes from their presence: when [l] passes path
    validation and the identity check, the chain is accepted with the
    expiration of [l]. *)
Theorem earlier_non_CA_certificates_ignored :
  forall (m : mutualAuthHandler) (id : option NumericIdentity)
         (caBundle : CertPool) (front back : list Certificate)
         (l : Certificate),
    IsCA l = false ->
    forallb IsCA back = true ->
    splitChain (front ++ l :: back)
      {| Roots := caBundle; Intermediates := x509_NewCertPool |} None =
      ({| Roots := caBundle; Intermediates := filter IsCA front ++ back |},
       Some l) /\
    verifyChain m id caBundle (front ++ l :: back) =
      verifyChain m id caBundle (filter IsCA front ++ l :: back) /\
    (forall cs1 cs2,
        verifyPeerCertificate m id caBundle (cs1 ++ (front ++ l :: back) :: cs2) =
        verifyPeerCertificate m id caBundle
          (cs1 ++ (filter IsCA front ++ l :: back) :: cs2)) /\
    (x509_Verify l
       {| Roots := caBundle; Intermediates := filter IsCA front ++ back |} = None ->
     identityAccepted m id l ->
     outcome (verifyPeerCertificate m id caBundle [front ++ l :: back]) =
     Return (Some (NotAfter l))).
Proof.
  intros m id caBundle front back l Hl Hback.
  assert (chainLeaf (front ++ l :: back) = Some l) as Hleaf
    by (apply chainLeaf_last_non_CA; assumption).
  assert (chainOptions caBundle (front ++ l :: back) =
          {| Roots := caBundle; Intermediates := filter IsCA front ++ back |})
    as Hopts.
  { rewrite chainOptions_eq, filter_app. simpl.
    rewrite Hl, (filter_all _ _ Hback). reflexivity. }
  assert (verifyChain m id caBundle (front ++ l :: back) =
          verifyChain m id caBundle (filter IsCA front ++ l :: back)) as Heq.
  { rewrite !verifyChain_eq, Hleaf, Hopts.
    rewrite (chainLeaf_last_non_CA (filter IsCA front) back l Hl Hback).
    rewrite chainOptions_eq, filter_app, filter_idempotent. simpl.
    rewrite Hl, (filter_all _ _ Hback). reflexivity. }
  split; [|split; [|split]].
  - rewrite splitChain_eq, Hleaf, Hopts. reflexivity.
  - exact Heq.
  - intros cs1 cs2. apply verifyChains_replace, Heq.
  - intros Hok Hid. rewrite <- Hopts in Hok.
    unfold verifyPeerCertificate. simpl.
    rewrite (bind_of_Return _ _ (verifyChain_accepted m id _ _ Hleaf Hok Hid)).
    reflexivity.
Qed.

(** *** The outbound handshake *)

Lemma Before_min (peer current : Time) :
  (if Before peer current then peer else current) = Z.min current peer.
Proof. unfold Before. destruct (Z.ltb_spec peer current); lia. Qed.

Lemma VerifyPeerCertificate_Return_inv (m : mutualAuthHandler)
    (ar : authRequest) (caBundle : CertPool) (rawCerts : list (list byte))
    (expiration e : option Time) :
  outcome (VerifyPeerCertificate m ar caBundle rawCerts expiration) = Return e ->
  exists current leaf,
    expiration = Some current /\
    verifiedPeerLeaf m ar caBundle rawCerts leaf /\
    e = Some (Z.min current (NotAfter leaf)).
Proof.
  unfold VerifyPeerCertificate. intros H.
  apply bind_Return_inv in H as (chain & Hparse & H).
  apply bind_Return_inv in H as (peer & Hpeer & H).
  unfold verifyPeerCertificate in Hpeer. simpl in Hpeer.
  apply bind_Return_inv in Hpeer as (t & Hchain & Ht).
  injection Ht as <-.
  apply verifyChain_Return_inv in Hchain as (leaf & Hleaf & Hok & Hid & ->).
  destruct expiration as [current|]; [|discriminate].
  exists current, leaf. split; [reflexivity|]. split.
  - exists chain. repeat split; assumption.
  - rewrite <- Before_min.
    destruct (Before (NotAfter leaf) current); injection H as <-; reflexivity.
Qed.

Lemma Handshake_Return_inv (m : mutualAuthHandler) (ar : authRequest)
    (caBundle : CertPool) (script : HandshakeScript) :
  forall (current : Time) (e : option Time),
    outcome (Handshake m ar caBundle script (Some current)) = Return e ->
    exists peers,
      Forall2 (verifiedPeerLeaf m ar caBundle) (peerCertificates script) peers /\
      e = Some (fold_left Z.min (map NotAfter peers) current).
Proof.
  induction script as [|err|next IH|rawCerts next IH]; intros current e H;
    cbn [Handshake] in H.
  - injection H as <-. exists []. split; [constructor|reflexivity].
  - discriminate.
  - rewrite outcome_emit_bind in H. apply IH, H.
  - apply bind_Return_inv in H as (e' & Hcb & H).
    apply VerifyPeerCertificate_Return_inv in Hcb
      as (current' & leaf & Hcur & Hleaf & ->).
    injection Hcur as <-.
    apply IH in H as (peers & Hpeers & ->).
    exists (leaf :: peers). split; [constructor; assumption|reflexivity].
Qed.

Lemma authenticate_Return_inv (m : mutualAuthHandler) (ar : authRequest)
    (resp : authResponse) :
  outcome (authenticate m (Some ar)) = Return resp ->
  exists clientCert localLeaf caBundle conn,
    GetCertificateForIdentity (cert m) (localIdentity ar) = inr clientCert /\
    Leaf clientCert = Some localLeaf /\
    GetTrustBundle (cert m) = inr caBundle /\
    net_Dial (remoteNodeIP ar) (MutualAuthListenerPort (cfg m)) = inr conn /\
    outcome (Handshake m ar caBundle
               (tls_Handshake conn
                  (NumericIdentityToSNI (cert m) (remoteIdentity ar)))
               (Some (NotAfter localLeaf))) =
    Return (Some (expirationTime resp)).
Proof.
  unfold authenticate. rewrite outcome_emit_bind.
  destruct (GetCertificateForIdentity (cert m) (localIdentity ar))
    as [err|clientCert] eqn:Hcert; [discriminate|].
  rewrite outcome_emit_bind.
  destruct (GetTrustBundle (cert m)) as [err|caBundle] eqn:Hca;
    [discriminate|].
  rewrite outcome_emit_bind.
  destruct (net_Dial (remoteNodeIP ar) (MutualAuthListenerPort (cfg m)))
    as [err|conn] eqn:Hdial; [discriminate|].
  rewrite defer_outcome.
  destruct (Leaf clientCert) as [localLeaf|] eqn:Hleaf; [|discriminate].
  rewrite outcome_emit_bind, defer_outcome, outcome_emit_bind.
  intros H. apply bind_Return_inv in H as (e & Hhs & Hres).
  apply wrapError_Return_inv in Hhs.
  destruct e as [t|]; [|discriminate]. injection Hres as <-.
  exists clientCert, localLeaf, caBundle, conn.
  repeat (split; [reflexivity || assumption|]). exact Hhs.
Qed.

(** C1. When [authenticate] succeeds, the provider gave a local
    certificate with a leaf [localLeaf]; and when the handshake handed the
    peer's certificates to the verifier (once, as one handshake does), they
    parsed into a chain whose leaf [peerLeaf] passed path validation, and
    the expiration time of the response is the minimum of the two leaves'
    [NotAfter]: the peer's when it is strictly before the local one, the
    local one otherwise. *)
Theorem authenticate_expiration_is_minimum :
  forall (m : mutualAuthHandler) (ar : authRequest) (resp : authResponse),
    outcome (authenticate m (Some ar)) = Return resp ->
    exists clientCert localLeaf caBundle conn,
      GetCertificateForIdentity (cert m) (localIdentity ar) = inr clientCert /\
      Leaf clientCert = Some localLeaf /\
      GetTrustBundle (cert m) = inr caBundle /\
      net_Dial (remoteNodeIP ar) (MutualAuthListenerPort (cfg m)) = inr conn /\
      forall rawCerts,
        peerCertificates
          (tls_Handshake conn
             (NumericIdentityToSNI (cert m) (remoteIdentity ar))) = [rawCerts] ->
        exists chain peerLeaf,
          outcome (parseChain rawCerts) = Return chain /\
          chainLeaf chain = Some peerLeaf /\
          x509_Verify peerLeaf (chainOptions caBundle chain) = None /\
          expirationTime resp = Z.min (NotAfter localLeaf) (NotAfter peerLeaf) /\
          expirationTime resp =
            (if Before (NotAfter peerLeaf) (NotAfter localLeaf)
             then NotAfter peerLeaf else NotAfter localLeaf).
Proof.
  intros m ar resp H.
  apply authenticate_Return_inv in H
    as (clientCert & localLeaf & caBundle & conn & Hcert & Hleaf & Hca
        & Hdial & Hhs).
  exists clientCert, localLeaf, caBundle, conn.
  repeat (split; [assumption|]).
  intros rawCerts Hscript.
  apply Handshake_Return_inv in Hhs as (peers & Hpeers & He).
  rewrite Hscript in Hpeers.
  inversion Hpeers as [|raw peerLeaf raws ls Hpeer Hrest]; subst.
  inversion Hrest; subst. simpl in He. injection He as He.
  destruct Hpeer as (chain & Hparse & Hpl & Hok & _).
  exists chain, peerLeaf. repeat (split; [assumption|]).
  rewrite Before_min. exact He.
Qed.

(** However many times the library calls the verifier, the response never
    outlives the local leaf nor any verified peer leaf. *)
Lemma authenticate_expiration_bound :
  forall (m : mutualAuthHandler) (ar : authRequest) (resp : authResponse),
    outcome (authenticate m (Some ar)) = Return resp ->
    exists clientCert localLeaf,
      GetCertificateForIdentity (cert m) (localIdentity ar) = inr clientCert /\
      Leaf clientCert = Some localLeaf /\
      expirationTime resp <= NotAfter localLeaf.
Proof.
  intros m ar resp H.
  apply authenticate_Return_inv in H
    as (clientCert & localLeaf & caBundle & conn & Hcert & Hleaf & _ & _ & Hhs).
  exists clientCert, localLeaf. repeat (split; [assumption|]).
  apply Handshake_Return_inv in Hhs as (peers & _ & He).
  injection He as ->. clear.
  generalize (NotAfter localLeaf) as t.
  induction (map NotAfter peers) as [|p ps IH]; intros t; simpl; [lia|].
  specialize (IH (Z.min t p)). lia.
Qed.

(** C9. [authenticate] never returns the error "failed to get expiration
    time of peer certificate" (NoExpirationDetermined): [expirationTime]
    starts as the address of the local leaf's [NotAfter], and a handshake
    that returns no error leaves it non-nil, whatever the library did and
    however often it called the verifier; so the nil check after the
    handshake never fires. (The check itself is there: [authResult] of a nil
    pointer is that error.) *)
Theorem authenticate_never_NoExpirationDetermined :
  forall (m : mutualAuthHandler),
    (forall ar : option authRequest,
        outcome (authenticate m ar) <> Error NoExpirationDetermined) /\
    (forall (ar : authRequest) (caBundle : CertPool)
            (script : HandshakeScript) (t : Time) (e : option Time),
        outcome (Handshake m ar caBundle script (Some t)) = Return e ->
        e <> None) /\
    outcome (authResult None) = Error NoExpirationDetermined.
Proof.
  intros m.
  assert (forall (ar : authRequest) caBundle script (t : Time) e,
             outcome (Handshake m ar caBundle script (Some t)) = Return e ->
             e <> None) as Hinv.
  { intros ar caBundle script t e H.
    apply Handshake_Return_inv in H as (peers & _ & ->). discriminate. }
  split; [|split; [exact Hinv|reflexivity]].
  intros [ar|]; [|discriminate].
  unfold authenticate. rewrite outcome_emit_bind.
  destruct (GetCertificateForIdentity (cert m) (localIdentity ar))
    as [err|clientCert]; [discriminate|].
  rewrite outcome_emit_bind.
  destruct (GetTrustBundle (cert m)) as [err|caBundle]; [discriminate|].
  rewrite outcome_emit_bind.
  destruct (net_Dial (remoteNodeIP ar) (MutualAuthListenerPort (cfg m)))
    as [err|conn]; [discriminate|].
  rewrite defer_outcome.
  destruct (Leaf clientCert) as [localLeaf|]; [|discriminate].
  rewrite outcome_emit_bind, defer_outcome, outcome_emit_bind.
  specialize (Hinv ar caBundle
                (tls_Handshake conn
                   (NumericIdentityToSNI (cert m) (remoteIdentity ar)))
                (NotAfter localLeaf)).
  destruct (Handshake m ar caBundle
              (tls_Handshake conn
                 (NumericIdentityToSNI (cert m) (remoteIdentity ar)))
              (Some (NotAfter localLeaf))) as [tr [e|err| |]];
    simpl in *; try discriminate.
  destruct e as [t|]; [discriminate|].
  exfalso. apply (Hinv None); reflexivity.
Qed.

End Properties.

(** The scenario as a whole: identity 5 authenticates to identity 10 at
    10.0.0.2:4250 and gets the remote expiration, with this trace. *)
Example authenticate_scenario :
  @authenticate runtime handler (Some request) =
  ([EvGetCertificateForIdentity 5%N; EvGetTrustBundle; EvDial "10.0.0.2" 4250;
    EvNumericIdentityToSNI 10%N;
    EvHandshake 1%N "spiffe://spiffe.cilium/identity/10";
    EvVerify remoteLeaf {| Roots := [rootCA]; Intermediates := [intermediateCA] |};
    EvLog DebugLevel "Validating Server SNI";
    EvValidateIdentity 10%N remoteLeaf;
    EvLog DebugLevel "Validated certificate";
    EvGetClientCertificate; EvTLSClose 1%N; EvConnClose 1%N],
   Return {| expirationTime := 1874966400 |}).
Proof. reflexivity. Qed.

(** ** The properties at work in the scenario *)

(** C1 in the scenario: local leaf 2030-01-01, peer leaf 2029-06-01. *)
Lemma authenticate_expiration_is_minimum_witness :
  outcome (authenticate (go := runtime) handler (Some request)) =
    Return {| expirationTime := 1874966400 |} /\
  exists clientCert local caBundle conn,
    GetCertificateForIdentity provider 5%N = inr clientCert /\
    Leaf clientCert = Some local /\
    GetTrustBundle provider = inr caBundle /\
    net_Dial (GoRuntime := runtime) "10.0.0.2" 4250 = inr conn /\
    forall rawCerts,
      peerCertificates
        (tls_Handshake (GoRuntime := runtime) conn (spiffeID 10%N)) = [rawCerts] ->
      exists chain peerLeaf,
        outcome (parseChain (go := runtime) rawCerts) = Return chain /\
        chainLeaf chain = Some peerLeaf /\
        x509_Verify (GoRuntime := runtime) peerLeaf (chainOptions caBundle chain)
          = None /\
        1874966400 = Z.min (NotAfter local) (NotAfter peerLeaf) /\
        1874966400 =
          (if Before (NotAfter peerLeaf) (NotAfter local)
           then NotAfter peerLeaf else NotAfter local).
Proof.
  split; [reflexivity|].
  exact (authenticate_expiration_is_minimum (go := runtime) handler request
           eq_refl).
Defined.

(** C2: two verified chains, the soonest leaf first. The value returned is
    the expiration of the second leaf, which is later than the first. *)
Lemma verifyPeerCertificate_not_minimum :
  outcome (verifyPeerCertificate (go := runtime) handler None [rootCA]
             [[remoteLeaf; intermediateCA]; [laterLeaf]]) =
    Return (Some (NotAfter laterLeaf)) /\
  ~ (forall t,
        outcome (verifyPeerCertificate (go := runtime) handler None [rootCA]
                   [[remoteLeaf; intermediateCA]; [laterLeaf]]) =
          Return (Some t) ->
        forall chain l,
          In chain [[remoteLeaf; intermediateCA]; [laterLeaf]] ->
          chainLeaf chain = Some l ->
          outcome (verifyChain (go := runtime) handler None [rootCA] chain) =
            Return (NotAfter l) ->
          t <= NotAfter l).
Proof.
  split; [reflexivity|].
  intros Hmin.
  specialize (Hmin (NotAfter laterLeaf) eq_refl
                [remoteLeaf; intermediateCA] remoteLeaf
                (or_introl eq_refl) eq_refl eq_refl).
  vm_compute in Hmin. apply Hmin. reflexivity.
Qed.

Lemma verifyPeerCertificate_returns_last_expiration_witness :
  outcome (verifyPeerCertificate (go := runtime) handler None [rootCA]
             [[remoteLeaf; intermediateCA]; [laterLeaf]]) =
    Return (Some 1924992000) /\
  exists front lastChain leaf,
    [[remoteLeaf; intermediateCA]; [laterLeaf]] = front ++ [lastChain] /\
    chainLeaf lastChain = Some leaf /\
    Some 1924992000 = Some (NotAfter leaf) /\
    Forall (fun chain =>
              exists l, chainLeaf chain = Some l /\
                        x509_Verify (GoRuntime := runtime) l
                          (chainOptions [rootCA] chain) = None)
           [[remoteLeaf; intermediateCA]; [laterLeaf]].
Proof.
  split; [reflexivity|].
  exact (verifyPeerCertificate_returns_last_expiration (go := runtime)
           handler None [rootCA] [[remoteLeaf; intermediateCA]; [laterLeaf]]
           eq_refl).
Defined.

(** C3 in the scenario: the remote leaf carries identity 10; expecting
    identity 5 is a mismatch, and a provider that fails has its error
    returned. *)
Lemma verifyPeerCertificate_identity_check_witness :
  chainLeaf [remoteLeaf; intermediateCA] = Some remoteLeaf /\
  x509_Verify (GoRuntime := runtime) remoteLeaf
    (chainOptions [rootCA] [remoteLeaf; intermediateCA]) = None /\
  ValidateIdentity provider 5%N remoteLeaf = (false, None) /\
  outcome (verifyPeerCertificate (go := runtime) handler (Some 5%N) [rootCA]
             [[remoteLeaf; intermediateCA]]) = Error IdentityMismatch /\
  outcome (verifyPeerCertificate (go := runtime) brokenHandler (Some 10%N)
             [rootCA] [[remoteLeaf; intermediateCA]]) =
    Error (IdentityValidationError (errors_New "no URI SAN")) /\
  outcome (verifyChain (go := runtime) handler None [rootCA]
             [remoteLeaf; intermediateCA]) = Return 1874966400.
Proof.
  split; [reflexivity|]. split; [reflexivity|]. split; [reflexivity|].
  pose proof (verifyPeerCertificate_identity_check (go := runtime) handler
                [rootCA] [remoteLeaf; intermediateCA] eq_refl eq_refl)
    as (Hfalse & _ & Hnone & _).
  pose proof (verifyPeerCertificate_identity_check (go := runtime)
                brokenHandler [rootCA] [remoteLeaf; intermediateCA]
                eq_refl eq_refl)
    as (_ & Herr & _).
  split; [|split].
  - exact (proj1 (Hfalse 5%N eq_refl) [] [] None eq_refl).
  - exact (Herr 10%N false (errors_New "no URI SAN") eq_refl [] [] None eq_refl).
  - exact Hnone.
Defined.

(** C5: a chain of two certificates that are not CA. The second is the
    leaf; the first is neither the leaf nor an intermediate, so the chain is
    not split into intermediates and one leaf. *)
Lemma chain_with_two_leaves_is_not_partitioned :
  splitChain [remoteLeaf; laterLeaf]
    {| Roots := [rootCA]; Intermediates := x509_NewCertPool |} None =
    ({| Roots := [rootCA]; Intermediates := [] |}, Some laterLeaf) /\
  ~ (forall opts leaf,
        splitChain [remoteLeaf; laterLeaf]
          {| Roots := [rootCA]; Intermediates := x509_NewCertPool |} None =
          (opts, leaf) ->
        forall c, In c [remoteLeaf; laterLeaf] ->
          (IsCA c = true /\ In c (Intermediates opts)) \/
          (IsCA c = false /\ leaf = Some c)) /\
  ~ Permutation [remoteLeaf; laterLeaf] (laterLeaf :: []).
Proof.
  split; [reflexivity|]. split.
  - intros Hpart.
    destruct (Hpart _ _ eq_refl remoteLeaf (or_introl eq_refl))
      as [[Hca _]|[_ Hleaf]]; discriminate.
  - intros Hperm. apply Permutation_length in Hperm. discriminate.
Qed.

Lemma chain_split_by_CA_flag_witness :
  forallb IsCA [intermediateCA; rootCA] = true /\
  verifyChain (go := runtime) handler (Some 10%N) [rootCA]
    [intermediateCA; rootCA] = ([], Error MissingLeafCertificate) /\
  chainLeaf [intermediateCA; remoteLeaf; rootCA] = Some remoteLeaf /\
  Permutation [intermediateCA; remoteLeaf; rootCA]
    (remoteLeaf :: filter IsCA [intermediateCA; remoteLeaf; rootCA]).
Proof.
  split; [reflexivity|].
  pose proof (chain_split_by_CA_flag (go := runtime) handler (Some 10%N)
                [rootCA] [intermediateCA; rootCA])
    as (_ & _ & _ & _ & _ & Hmissing).
  pose proof (chain_split_by_CA_flag (go := runtime) handler (Some 10%N)
                [rootCA] [intermediateCA; remoteLeaf; rootCA])
    as (_ & _ & Hone & _).
  split; [exact (proj1 (Hmissing eq_refl))|].
  exact (Hone [intermediateCA] remoteLeaf [rootCA] eq_refl eq_refl eq_refl
           eq_refl).
Defined.

Lemma newMTLSAuthHandler_disabled_witness :
  MutualAuthListenerPort {| MutualAuthListenerPort := 0 |} = 0 /\
  newMTLSAuthHandler [] {| MutualAuthListenerPort := 0 |}
    {| CertificateProvider := None |} =
    ([EvLog InfoLevel
        "mutual authentication handler is disabled as no port is configured"],
     Return ([], {| AuthHandler := None |})).
Proof.
  split; [reflexivity|].
  exact (proj1 (newMTLSAuthHandler_disabled (go := runtime) []
                  {| MutualAuthListenerPort := 0 |}
                  {| CertificateProvider := None |} eq_refl)).
Defined.

(** C8: running out of file descriptors does not stop the loop, the closed
    socket does. *)
Lemma acceptLoop_exits_only_on_ErrClosed_witness :
  errors_Is_ErrClosed
    (net_OpError "accept" (errors_New "too many open files")) = false /\
  acceptLoop
    [AcceptFailed (net_OpError "accept" (errors_New "too many open files"));
     Accepted 7%N;
     AcceptFailed (net_OpError "accept" net_ErrClosed);
     Accepted 8%N] =
    ([EvAccept; EvLog ErrorLevel "Failed to accept connection";
      EvAccept; EvGoHandleConnection 7%N;
      EvAccept; EvLog ErrorLevel "Failed to accept connection";
      EvLog InfoLevel "mTLS listener socket got closed"],
     Returned).
Proof.
  split; [reflexivity|].
  pose proof (acceptLoop_exits_only_on_ErrClosed
                (net_OpError "accept" (errors_New "too many open files")))
    as (_ & Hgo & _).
  rewrite (proj2 (Hgo eq_refl)). reflexivity.
Defined.

Lemma authenticate_never_NoExpirationDetermined_witness :
  outcome (Handshake (go := runtime) handler request [rootCA]
             (tls_Handshake (GoRuntime := runtime) 1%N (spiffeID 10%N))
             (Some 1893456000)) = Return (Some 1874966400) /\
  Some 1874966400 <> None /\
  outcome (authenticate (go := runtime) handler (Some request))
    <> Error NoExpirationDetermined.
Proof.
  split; [reflexivity|].
  pose proof (authenticate_never_NoExpirationDetermined (go := runtime) handler)
    as (Hnever & Hinv & _).
  split.
  - exact (Hinv request [rootCA]
             (tls_Handshake (GoRuntime := runtime) 1%N (spiffeID 10%N))
             1893456000 (Some 1874966400) eq_refl).
  - exact (Hnever (Some request)).
Defined.

(** C10 in the scenario: a chain that starts with a second certificate
    that is not CA is accepted on its last one. *)
Lemma earlier_non_CA_certificates_ignored_witness :
  IsCA remoteLeaf = false /\
  forallb IsCA [intermediateCA] = true /\
  splitChain [laterLeaf; remoteLeaf; intermediateCA]
    {| Roots := [rootCA]; Intermediates := x509_NewCertPool |} None =
    ({| Roots := [rootCA]; Intermediates := [intermediateCA] |},
     Some remoteLeaf) /\
  outcome (verifyPeerCertificate (go := runtime) handler (Some 10%N) [rootCA]
             [[laterLeaf; remoteLeaf; intermediateCA]]) =
    Return (Some 1874966400).
Proof.
  split; [reflexivity|]. split; [reflexivity|].
  pose proof (earlier_non_CA_certificates_ignored (go := runtime) handler
                (Some 10%N) [rootCA] [laterLeaf] [intermediateCA] remoteLeaf
                eq_refl eq_refl)
    as (Hsplit & _ & _ & Haccept).
  split; [exact Hsplit|].
  exact (Haccept eq_refl eq_refl).
Defined.

(** ** Further properties of the handler *)

Lemma trace_bind {A B : Type} (c : M A) (k : A -> M B) :
  trace (bind c k) =
  trace c ++ match outcome c with
             | Return a => trace (k a)
             | _ => []
             end.
Proof.
  destruct c as [tr [a|e| |]]; simpl; try (rewrite app_nil_r; reflexivity).
  destruct (k a); reflexivity.
Qed.

Lemma outcome_bind {A B : Type} (c : M A) (k : A -> M B) :
  outcome (bind c k) =
  match outcome c with
  | Return a => outcome (k a)
  | Error e => Error e
  | Panic => Panic
  | Fatal => Fatal
  end.
Proof.
  destruct c as [tr [a|e| |]]; simpl; try reflexivity.
  destruct (k a); reflexivity.
Qed.

Lemma Forall_trace_bind {A B : Type} (P : Event -> Prop) (c : M A)
    (k : A -> M B) :
  Forall P (trace c) ->
  (forall a, outcome c = Return a -> Forall P (trace (k a))) ->
  Forall P (trace (bind c k)).
Proof.
  intros Hc Hk. rewrite trace_bind. apply Forall_app. split; [exact Hc|].
  destruct (outcome c) as [a|e| |] eqn:Ho; try constructor.
  apply Hk. reflexivity.
Qed.

Lemma pair_trace_outcome {A : Type} (c : M A) : c = (trace c, outcome c).
Proof. destruct c; reflexivity. Qed.

Section Verifier.

Context {go : GoRuntime}.

Variable m : mutualAuthHandler.
Variable id : option NumericIdentity.
Variable caBundle : CertPool.

Lemma validateSAN_outcomes (leaf : Certificate) :
  (outcome (validateSAN m id leaf) = Return tt /\ identityAccepted m id leaf) \/
  (exists e, outcome (validateSAN m id leaf) = Error e /\
             (e = IdentityMismatch \/ exists err, e = IdentityValidationError err)).
Proof.
  destruct id as [i|]; [|left; split; [reflexivity|exact I]].
  unfold validateSAN, identityAccepted. rewrite !outcome_emit_bind.
  destruct (ValidateIdentity (cert m) i leaf) as [[|] [err|]]; simpl.
  - right. eexists. split; [reflexivity|]. right. eexists. reflexivity.
  - left. split; reflexivity.
  - right. eexists. split; [reflexivity|]. right. eexists. reflexivity.
  - right. eexists. split; [reflexivity|]. left. reflexivity.
Qed.

Lemma verifyChain_outcomes (chain : list Certificate) :
  (exists t, outcome (verifyChain m id caBundle chain) = Return t) \/
  (exists e, outcome (verifyChain m id caBundle chain) = Error e /\
             verifierError e).
Proof.
  rewrite verifyChain_eq.
  destruct (chainLeaf chain) as [leaf|];
    [|right; eexists; split; [reflexivity|constructor]].
  rewrite outcome_emit_bind.
  destruct (x509_Verify leaf (chainOptions caBundle chain)) as [err|];
    [right; eexists; split; [reflexivity|constructor]|].
  rewrite outcome_bind.
  destruct (validateSAN_outcomes leaf) as [[Hok _]|(e & He & Hkind)].
  - rewrite Hok. left. eexists. reflexivity.
  - rewrite He. right. exists e. split; [reflexivity|].
    destruct Hkind as [->|[err ->]]; constructor.
Qed.

Lemma verifyChain_accepted_iff (chain : list Certificate) :
  (exists t, outcome (verifyChain m id caBundle chain) = Return t) <->
  chainAccepted m id caBundle chain.
Proof.
  split.
  - intros [t Ht].
    apply verifyChain_Return_inv in Ht as (leaf & Hleaf & Hok & Hid & _).
    exists leaf. repeat split; assumption.
  - intros (leaf & Hleaf & Hok & Hid). exists (NotAfter leaf).
    apply verifyChain_accepted; assumption.
Qed.

Lemma verifyChains_outcomes (certChains : list (list Certificate)) :
  forall expiration,
    (exists r, outcome (verifyChains m id caBundle certChains expiration)
               = Return r /\
               (certChains <> [] -> exists t, r = Some t)) \/
    (exists e, outcome (verifyChains m id caBundle certChains expiration)
               = Error e /\ verifierError e).
Proof.
  induction certChains as [|c rest IH]; intros expiration.
  - left. exists expiration. split; [reflexivity|]. intros H. contradiction.
  - cbn [verifyChains]. rewrite outcome_bind.
    destruct (verifyChain_outcomes c) as [[t Ht]|(e & He & Hkind)].
    + rewrite Ht. destruct (IH (Some t)) as [(r & Hr & Hsome)|Herr].
      * left. exists r. split; [exact Hr|]. intros _.
        destruct rest as [|c' rest'].
        -- simpl in Hr. injection Hr as <-. exists t. reflexivity.
        -- apply Hsome. discriminate.
      * right. exact Herr.
    + rewrite He. right. exists e. split; [reflexivity|exact Hkind].
Qed.


(** X2. [verifyPeerCertificate] succeeds exactly when the list of chains
    is not empty and every chain in it is accepted: it has a certificate
    that is not flagged as CA, its leaf passes path validation against the
    trust bundle with the chain's intermediates, and, when an identity is
    expected, [ValidateIdentity] returns true without error for the leaf. *)
Theorem verifyPeerCertificate_accepts_iff :
  forall certChains : list (list Certificate),
    (exists r, outcome (verifyPeerCertificate m id caBundle certChains)
               = Return r) <->
    certChains <> [] /\ Forall (chainAccepted m id caBundle) certChains.
Proof.
  intros certChains. split.
  - intros [r Hr]. destruct certChains as [|c rest]; [discriminate|].
    split; [discriminate|].
    rewrite verifyPeerCertificate_nonempty in Hr by discriminate.
    apply verifyChains_Return_inv in Hr as [Hall _].
    eapply Forall_impl; [|exact Hall].
    intros chain Hchain. apply verifyChain_accepted_iff, Hchain.
  - intros [Hne Hall]. rewrite verifyPeerCertificate_nonempty by exact Hne.
    clear Hne. generalize (@None Time) as expiration.
    induction Hall as [|c rest Hc _ IH]; intros expiration.
    + exists expiration. reflexivity.
    + apply verifyChain_accepted_iff in Hc as [t Ht].
      destruct (IH (Some t)) as [r Hr]. exists r.
      cbn [verifyChains]. rewrite outcome_bind, Ht. exact Hr.
Qed.

(** X3. [verifyPeerCertificate] stops at the first chain that is not
    accepted: when the chains in front of it are accepted and the chain fails
    with an error, that error is the result and the trace ends with that
    chain, whatever chains come after it; they are not looked at. *)
Theorem verifyPeerCertificate_stops_at_first_failure :
  forall (front : list (list Certificate)) (chain : list Certificate)
         (e0 : option Time) (err : error),
    outcome (verifyChains m id caBundle front None) = Return e0 ->
    outcome (verifyChain m id caBundle chain) = Error err ->
    forall rest : list (list Certificate),
      verifyPeerCertificate m id caBundle (front ++ chain :: rest) =
      (trace (verifyChains m id caBundle front None)
         ++ trace (verifyChain m id caBundle chain),
       Error err).
Proof.
  intros front chain e0 err Hfront Hchain rest.
  rewrite verifyPeerCertificate_nonempty
    by (intros Hnil; apply app_eq_nil in Hnil as [_ Hnil]; discriminate).
  rewrite verifyChains_app, (bind_of_Return _ _ Hfront).
  cbn [verifyChains]. rewrite (bind_of_Error _ _ Hchain). reflexivity.
Qed.

Lemma verifyChain_trace_cases (chain : list Certificate) :
  trace (verifyChain m id caBundle chain) = [] \/
  exists leaf,
    chainLeaf chain = Some leaf /\
    ((x509_Verify leaf (chainOptions caBundle chain) <> None /\
      trace (verifyChain m id caBundle chain) =
        [EvVerify leaf (chainOptions caBundle chain)]) \/
     (x509_Verify leaf (chainOptions caBundle chain) = None /\
      exists tail,
        trace (verifyChain m id caBundle chain) =
          EvVerify leaf (chainOptions caBundle chain) :: tail /\
        forall ev, In ev tail ->
          (exists msg, ev = EvLog DebugLevel msg) \/
          (exists i, id = Some i /\ ev = EvValidateIdentity i leaf))).
Proof.
  rewrite verifyChain_eq.
  destruct (chainLeaf chain) as [leaf|]; [right|left; reflexivity].
  exists leaf. split; [reflexivity|]. rewrite emit_bind.
  destruct (x509_Verify leaf (chainOptions caBundle chain)) as [err|] eqn:Hok.
  - left. split; [discriminate|reflexivity].
  - right. split; [reflexivity|]. eexists. split; [reflexivity|].
    intros ev. rewrite trace_bind. intros Hin.
    apply in_app_or in Hin as [Hin|Hin].
    + destruct id as [i|]; [|contradiction].
      unfold validateSAN in Hin. rewrite emit_bind in Hin.
      destruct Hin as [<-|Hin]; [left; eexists; reflexivity|].
      rewrite emit_bind in Hin.
      destruct Hin as [<-|Hin]; [right; exists i; split; reflexivity|].
      destruct (ValidateIdentity (cert m) i leaf) as [[|] [err|]];
        contradiction.
    + destruct (outcome (validateSAN m id leaf)); try contradiction.
      rewrite emit_bind in Hin. destruct Hin as [<-|[]].
      left. eexists. reflexivity.
Qed.

Lemma verifyChains_trace_In (certChains : list (list Certificate)) :
  forall expiration ev,
    In ev (trace (verifyChains m id caBundle certChains expiration)) ->
    exists chain,
      In chain certChains /\ In ev (trace (verifyChain m id caBundle chain)).
Proof.
  induction certChains as [|c rest IH]; intros expiration ev Hin;
    [contradiction|].
  cbn [verifyChains] in Hin. rewrite trace_bind in Hin.
  apply in_app_or in Hin as [Hin|Hin].
  - exists c. split; [left; reflexivity|exact Hin].
  - destruct (outcome (verifyChain m id caBundle c)) as [t| | |];
      try contradiction.
    apply IH in Hin as (chain & Hchain & Hev).
    exists chain. split; [right; exact Hchain|exact Hev].
Qed.

Lemma verifyPeerCertificate_trace_In (certChains : list (list Certificate))
    (ev : Event) :
  In ev (trace (verifyPeerCertificate m id caBundle certChains)) ->
  exists chain,
    In chain certChains /\ In ev (trace (verifyChain m id caBundle chain)).
Proof.
  destruct certChains as [|c rest]; [contradiction|].
  rewrite verifyPeerCertificate_nonempty by discriminate.
  apply verifyChains_trace_In.
Qed.

(** X4. The identity check comes after path validation: whenever
    [verifyPeerCertificate] calls [ValidateIdentity], it is for the expected
    identity and for the leaf of one of the chains, and that leaf has passed
    path validation. A certificate that fails path validation is never
    submitted to the provider. *)
Theorem ValidateIdentity_only_after_path_validation :
  forall (certChains : list (list Certificate)) (i : NumericIdentity)
         (leaf : Certificate),
    In (EvValidateIdentity i leaf)
       (trace (verifyPeerCertificate m id caBundle certChains)) ->
    id = Some i /\
    exists chain,
      In chain certChains /\ chainLeaf chain = Some leaf /\
      x509_Verify leaf (chainOptions caBundle chain) = None.
Proof.
  intros certChains i leaf Hin.
  apply verifyPeerCertificate_trace_In in Hin as (chain & Hchain & Hin).
  destruct (verifyChain_trace_cases chain)
    as [Hnil|(l & Hleaf & [[_ Htr]|(Hok & tail & Htr & Htail)])];
    rewrite ?Hnil, ?Htr in Hin.
  - contradiction.
  - destruct Hin as [Hin|[]]. discriminate.
  - destruct Hin as [Hin|Hin]; [discriminate|].
    destruct (Htail _ Hin) as [[msg Hmsg]|(i' & Hid & Hev)];
      [discriminate|].
    injection Hev as <- <-. split; [exact Hid|].
    exists chain. repeat split; assumption.
Qed.

Lemma verifyChain_trace_wellFormed (chain : list Certificate) :
  Forall (verifyWellFormed caBundle) (trace (verifyChain m id caBundle chain)).
Proof.
  apply Forall_forall. intros ev Hin.
  assert (forall leaf, chainLeaf chain = Some leaf ->
            verifyWellFormed caBundle
              (EvVerify leaf (chainOptions caBundle chain))) as Hwf.
  { intros leaf Hleaf. simpl.
    apply chainLeaf_Some_inv in Hleaf as (pre & post & _ & Hl & _).
    rewrite chainOptions_eq. simpl. repeat split; [exact Hl|].
    apply forallb_forall. intros c Hc. apply filter_In in Hc. apply Hc. }
  destruct (verifyChain_trace_cases chain)
    as [Hnil|(l & Hleaf & [[_ Htr]|(Hok & tail & Htr & Htail)])];
    rewrite ?Hnil, ?Htr in Hin.
  - contradiction.
  - destruct Hin as [<-|[]]. apply Hwf, Hleaf.
  - destruct Hin as [<-|Hin]; [apply Hwf, Hleaf|].
    destruct (Htail _ Hin) as [[msg ->]|(i & _ & ->)]; exact I.
Qed.

(** X5. Every path validation [verifyPeerCertificate] asks for is well
    formed: the certificate verified is never one flagged as CA, the roots
    are the trust bundle it was given, and the intermediates are all flagged
    as CA (a certificate that is not a CA is never used as an
    intermediate). *)
Theorem verifyPeerCertificate_verifies_leaves_only :
  forall certChains : list (list Certificate),
    Forall (verifyWellFormed caBundle)
           (trace (verifyPeerCertificate m id caBundle certChains)).
Proof.
  intros certChains. apply Forall_forall. intros ev Hin.
  apply verifyPeerCertificate_trace_In in Hin as (chain & _ & Hin).
  pose proof (verifyChain_trace_wellFormed chain) as Hwf.
  rewrite Forall_forall in Hwf. apply Hwf, Hin.
Qed.

End Verifier.

Lemma defer_trace {A : Type} (ev : Event) (body : M A) :
  outcome body <> Fatal -> trace (defer ev body) = trace body ++ [ev].
Proof. destruct body as [tr [a|e| |]]; simpl; congruence. Qed.

Lemma fold_left_min_le (l : list Z) :
  forall a, fold_left Z.min l a <= a /\ Forall (fun x => fold_left Z.min l a <= x) l.
Proof.
  induction l as [|x rest IH]; intros a; simpl.
  - split; [lia|constructor].
  - destruct (IH (Z.min a x)) as [Hle Hall]. split; [lia|].
    constructor; [lia|exact Hall].
Qed.

Section Outbound.

Context {go : GoRuntime}.

Variable m : mutualAuthHandler.

Lemma parseChain_trace (rawCerts : list (list byte)) :
  trace (parseChain rawCerts) = [].
Proof.
  induction rawCerts as [|raw rest IH]; simpl; [reflexivity|].
  destruct (x509_ParseCertificate raw) as [err|c]; [reflexivity|].
  destruct (parseChain rest) as [tr [chain|e| |]]; simpl in *; subst;
    reflexivity.
Qed.

Lemma parseChain_cons (raw : list byte) (rest : list (list byte)) :
  outcome (parseChain (raw :: rest)) =
  match x509_ParseCertificate raw with
  | inl err => Error (CertificateParseError err)
  | inr c =>
      match outcome (parseChain rest) with
      | Return chain => Return (c :: chain)
      | Error e => Error e
      | Panic => Panic
      | Fatal => Fatal
      end
  end.
Proof.
  simpl. destruct (x509_ParseCertificate raw) as [err|c]; [reflexivity|].
  destruct (parseChain rest) as [tr [chain|e| |]]; reflexivity.
Qed.

(** X6. [parseChain] (the loop of the callback over the raw certificates)
    returns a chain exactly when every raw certificate parses, and the chain
    then holds the parsed certificates in the order received; otherwise it
    returns the parse error of the first certificate that does not parse,
    wrapped. It calls nothing that is traced. *)
Theorem parseChain_all_or_first_error :
  forall rawCerts : list (list byte),
    trace (parseChain rawCerts) = [] /\
    (forall chain,
        outcome (parseChain rawCerts) = Return chain <->
        Forall2 (fun raw c => x509_ParseCertificate raw = inr c)
                rawCerts chain) /\
    (forall front raw rest err,
        rawCerts = front ++ raw :: rest ->
        Forall (fun r => exists c, x509_ParseCertificate r = inr c) front ->
        x509_ParseCertificate raw = inl err ->
        outcome (parseChain rawCerts) = Error (CertificateParseError err)).
Proof.
  intros rawCerts. split; [apply parseChain_trace|]. split.
  - induction rawCerts as [|raw rest IH]; intros chain.
    + split.
      * intros H. injection H as <-. constructor.
      * intros H. inversion H. reflexivity.
    + rewrite parseChain_cons. split.
      * destruct (x509_ParseCertificate raw) as [err|c] eqn:Hraw;
          [discriminate|].
        destruct (outcome (parseChain rest)) as [chain'|e| |] eqn:Hrest;
          try discriminate.
        intros H. injection H as <-. constructor; [exact Hraw|].
        apply IH. reflexivity.
      * intros H. inversion H as [|r c rs cs Hraw Hrest]; subst.
        rewrite Hraw. apply IH in Hrest. rewrite Hrest. reflexivity.
  - intros front raw rest err -> Hfront Hraw.
    induction Hfront as [|r rs [c Hr] _ IH].
    + simpl app. rewrite parseChain_cons, Hraw. reflexivity.
    + simpl app. rewrite parseChain_cons, Hr, IH. reflexivity.
Qed.

Variable ar : authRequest.
Variable caBundle : CertPool.

(** X7. The callback always hands exactly one chain to
    [verifyPeerCertificate], so its errors are a parse error or a verifier
    error other than "no certificate chains found". In particular, when the
    peer sends no certificate at all the callback fails with "no leaf
    certificate found", and a certificate that does not parse makes it fail
    before any path validation or identity check. *)
Theorem VerifyPeerCertificate_errors :
  forall (rawCerts : list (list byte)) (expiration : option Time),
    (forall e,
        outcome (VerifyPeerCertificate m ar caBundle rawCerts expiration)
          = Error e ->
        ((exists err, e = CertificateParseError err) \/ verifierError e) /\
        e <> EmptyChainList) /\
    VerifyPeerCertificate m ar caBundle [] expiration =
      ([], Error MissingLeafCertificate) /\
    (forall e,
        outcome (parseChain rawCerts) = Error e ->
        VerifyPeerCertificate m ar caBundle rawCerts expiration =
          ([], Error e) /\
        exists err, e = CertificateParseError err).
Proof.
  intros rawCerts expiration.
  assert (forall e, outcome (parseChain rawCerts) = Error e ->
                    exists err, e = CertificateParseError err) as Hparse.
  { induction rawCerts as [|raw rest IH]; intros e; [discriminate|].
    rewrite parseChain_cons.
    destruct (x509_ParseCertificate raw) as [err|c].
    - intros H. injection H as <-. exists err. reflexivity.
    - destruct (outcome (parseChain rest)) as [chain|e'| |];
        try discriminate.
      intros H. injection H as <-. apply IH. reflexivity. }
  split; [|split].
  - intros e. unfold VerifyPeerCertificate. rewrite outcome_bind.
    destruct (outcome (parseChain rawCerts)) as [chain|e'| |] eqn:Hp;
      try discriminate.
    + rewrite outcome_bind.
      rewrite verifyPeerCertificate_nonempty by discriminate.
      cbn [verifyChains]. rewrite outcome_bind.
      destruct (verifyChain_outcomes m (Some (remoteIdentity ar)) caBundle chain)
        as [[t Ht]|(e' & He' & Hkind)].
      * rewrite Ht. simpl.
        destruct expiration as [current|]; [|discriminate].
        destruct (Before t current); discriminate.
      * rewrite He'. intros H. injection H as <-.
        split; [right; exact Hkind|].
        rewrite verifyChain_eq in He'.
        destruct (chainLeaf chain) as [leaf|].
        -- rewrite outcome_emit_bind in He'.
           destruct (x509_Verify leaf (chainOptions caBundle chain));
             [injection He' as <-; discriminate|].
           rewrite outcome_bind in He'.
           destruct (validateSAN_outcomes m (Some (remoteIdentity ar)) leaf)
             as [[Hok _]|(e2 & He2 & [->|[err ->]])];
             rewrite ?Hok, ?He2 in He'; try discriminate;
             injection He' as <-; discriminate.
        -- injection He' as <-. discriminate.
    + intros H. injection H as <-.
      destruct (Hparse e' eq_refl) as [err ->].
      split; [left; exists err; reflexivity|discriminate].
  - reflexivity.
  - intros e He. split; [|apply Hparse, He].
    unfold VerifyPeerCertificate. rewrite (bind_of_Error _ _ He).
    rewrite parseChain_trace. reflexivity.
Qed.

Lemma VerifyPeerCertificate_events (rawCerts : list (list byte))
    (expiration : option Time) :
  Forall (fun ev => isCallbackEvent ev = true)
         (trace (VerifyPeerCertificate m ar caBundle rawCerts expiration)) /\
  Forall (verifyWellFormed caBundle)
         (trace (VerifyPeerCertificate m ar caBundle rawCerts expiration)) /\
  outcome (VerifyPeerCertificate m ar caBundle rawCerts expiration) <> Fatal.
Proof.
  unfold VerifyPeerCertificate.
  rewrite trace_bind, parseChain_trace, outcome_bind. simpl app.
  destruct (outcome (parseChain rawCerts)) as [chain|e| |] eqn:Hp.
  - rewrite trace_bind, outcome_bind.
    set (v := verifyPeerCertificate m (Some (remoteIdentity ar)) caBundle
                [chain]).
    assert (Forall (fun ev => isCallbackEvent ev = true) (trace v)) as Hev.
    { apply Forall_forall. intros ev Hin.
      apply verifyPeerCertificate_trace_In in Hin as (c & _ & Hin).
      destruct (verifyChain_trace_cases m (Some (remoteIdentity ar)) caBundle c)
        as [Hnil|(l & _ & [[_ Htr]|(_ & tail & Htr & Htail)])];
        rewrite ?Hnil, ?Htr in Hin.
      - contradiction.
      - destruct Hin as [<-|[]]. reflexivity.
      - destruct Hin as [<-|Hin]; [reflexivity|].
        destruct (Htail _ Hin) as [[msg ->]|(i & _ & ->)]; reflexivity. }
    assert (Forall (verifyWellFormed caBundle) (trace v)) as Hwf.
    { apply Forall_forall. intros ev Hin.
      apply verifyPeerCertificate_trace_In in Hin as (c & _ & Hin).
      pose proof (verifyChain_trace_wellFormed m (Some (remoteIdentity ar))
                    caBundle c) as Hc.
      rewrite Forall_forall in Hc. apply Hc, Hin. }
    split; [|split].
    + apply Forall_app. split; [exact Hev|].
      destruct (outcome v) as [[t|]| | |]; try constructor;
        destruct expiration as [current|]; try constructor;
        destruct (Before t current); constructor.
    + apply Forall_app. split; [exact Hwf|].
      destruct (outcome v) as [[t|]| | |]; try constructor;
        destruct expiration as [current|]; try constructor;
        destruct (Before t current); constructor.
    + destruct (verifyChains_outcomes m (Some (remoteIdentity ar)) caBundle
                  [chain] None) as [(r & Hr & _)|(e & He & _)];
        unfold v; rewrite verifyPeerCertificate_nonempty by discriminate.
      * rewrite Hr. destruct r as [t|]; [|discriminate].
        destruct expiration as [current|]; [|discriminate].
        destruct (Before t current); discriminate.
      * rewrite He. discriminate.
  - repeat split; try constructor. discriminate.
  - repeat split; try constructor. discriminate.
  - exfalso. clear -Hp.
    induction rawCerts as [|raw rest IH]; [discriminate|].
    rewrite parseChain_cons in Hp.
    destruct (x509_ParseCertificate raw); [discriminate|].
    destruct (outcome (parseChain rest)); try discriminate.
    apply IH. reflexivity.
Qed.

End Outbound.

Section Authenticate.

Context {go : GoRuntime}.

Variable m : mutualAuthHandler.
Variable ar : authRequest.

Lemma Handshake_events (caBundle : CertPool) (script : HandshakeScript) :
  forall expiration,
    Forall (fun ev => isCallbackEvent ev = true)
           (trace (Handshake m ar caBundle script expiration)) /\
    Forall (verifyWellFormed caBundle)
           (trace (Handshake m ar caBundle script expiration)) /\
    outcome (Handshake m ar caBundle script expiration) <> Fatal.
Proof.
  induction script as [|err|next IH|rawCerts next IH]; intros expiration;
    cbn [Handshake].
  - repeat split; try constructor. discriminate.
  - repeat split; try constructor. discriminate.
  - rewrite emit_bind. destruct (IH expiration) as (Hev & Hwf & Hfatal).
    repeat split; try (constructor; [reflexivity || exact I|assumption]).
    exact Hfatal.
  - destruct (VerifyPeerCertificate_events m ar caBundle rawCerts expiration)
      as (Hev & Hwf & Hfatal).
    split; [|split].
    + apply Forall_trace_bind; [exact Hev|]. intros e _. apply IH.
    + apply Forall_trace_bind; [exact Hwf|]. intros e _. apply IH.
    + rewrite outcome_bind.
      destruct (outcome (VerifyPeerCertificate m ar caBundle rawCerts
                           expiration)) as [e|e| |];
        try discriminate; [apply IH|contradiction].
Qed.

Lemma callback_events_not_close (tr : list Event) :
  Forall (fun ev => isCallbackEvent ev = true) tr -> filter isClose tr = [].
Proof.
  induction 1 as [|ev rest Hev _ IH]; simpl; [reflexivity|].
  destruct ev as [[| | |] msg| | | | | | | | | | | | | | |];
    try discriminate; exact IH.
Qed.

(** X8. [authenticate] fails fast on its preconditions, and each failure
    is returned wrapped with its context: without a certificate for the
    local identity the trust bundle is not fetched; without a trust bundle
    nothing is dialed; when the dial fails no handshake starts and there is
    no connection to close. *)
Theorem authenticate_fails_fast :
  (forall err,
      GetCertificateForIdentity (cert m) (localIdentity ar) = inl err ->
      authenticate m (Some ar) =
        ([EvGetCertificateForIdentity (localIdentity ar)],
         Error (CertificateUnavailable (localIdentity ar) err))) /\
  (forall clientCert err,
      GetCertificateForIdentity (cert m) (localIdentity ar) = inr clientCert ->
      GetTrustBundle (cert m) = inl err ->
      authenticate m (Some ar) =
        ([EvGetCertificateForIdentity (localIdentity ar); EvGetTrustBundle],
         Error (TrustBundleUnavailable err))) /\
  (forall clientCert caBundle err,
      GetCertificateForIdentity (cert m) (localIdentity ar) = inr clientCert ->
      GetTrustBundle (cert m) = inr caBundle ->
      net_Dial (remoteNodeIP ar) (MutualAuthListenerPort (cfg m)) = inl err ->
      authenticate m (Some ar) =
        ([EvGetCertificateForIdentity (localIdentity ar); EvGetTrustBundle;
          EvDial (remoteNodeIP ar) (MutualAuthListenerPort (cfg m))],
         Error (ConnectionFailed (remoteNodeIP ar)
                  (MutualAuthListenerPort (cfg m)) err))).
Proof.
  split; [|split].
  - intros err Hcert. unfold authenticate. rewrite Hcert. reflexivity.
  - intros clientCert err Hcert Hca. unfold authenticate.
    rewrite Hcert, Hca. reflexivity.
  - intros clientCert caBundle err Hcert Hca Hdial. unfold authenticate.
    rewrite Hcert, Hca, Hdial. reflexivity.
Qed.

Section Connected.

Variable clientCert : tls_Certificate.
Variable caBundle : CertPool.
Variable conn : Conn.

Hypothesis Hcert :
  GetCertificateForIdentity (cert m) (localIdentity ar) = inr clientCert.
Hypothesis Hca : GetTrustBundle (cert m) = inr caBundle.
Hypothesis Hdial :
  net_Dial (remoteNodeIP ar) (MutualAuthListenerPort (cfg m)) = inr conn.

(** X9. A local certificate without a parsed leaf ([Leaf] is nil) makes
    [authenticate] panic on the dereference, after the connection was
    dialed: no handshake is attempted, and the deferred close of the
    connection still runs. *)
Theorem authenticate_nil_leaf_panics :
  Leaf clientCert = None ->
  authenticate m (Some ar) =
    ([EvGetCertificateForIdentity (localIdentity ar); EvGetTrustBundle;
      EvDial (remoteNodeIP ar) (MutualAuthListenerPort (cfg m));
      EvConnClose conn],
     Panic).
Proof.
  intros Hleaf. unfold authenticate. rewrite Hcert, Hca, Hdial, Hleaf.
  reflexivity.
Qed.

Lemma authenticate_connected (localLeaf : Certificate) :
  Leaf clientCert = Some localLeaf ->
  let serverName := NumericIdentityToSNI (cert m) (remoteIdentity ar) in
  let hs := Handshake m ar caBundle (tls_Handshake conn serverName)
              (Some (NotAfter localLeaf)) in
  authenticate m (Some ar) =
    ([EvGetCertificateForIdentity (localIdentity ar); EvGetTrustBundle;
      EvDial (remoteNodeIP ar) (MutualAuthListenerPort (cfg m));
      EvNumericIdentityToSNI (remoteIdentity ar);
      EvHandshake conn serverName]
       ++ trace hs ++ [EvTLSClose conn; EvConnClose conn],
     match outcome hs with
     | Return (Some t) => Return {| expirationTime := t |}
     | Return None => Error NoExpirationDetermined
     | Error e => Error (HandshakeFailed e)
     | Panic => Panic
     | Fatal => Fatal
     end).
Proof.
  intros Hleaf serverName hs.
  destruct (Handshake_events caBundle (tls_Handshake conn serverName)
              (Some (NotAfter localLeaf))) as (_ & _ & Hfatal).
  fold hs in Hfatal.
  unfold authenticate. rewrite Hcert, Hca, Hdial, Hleaf.
  fold serverName. fold hs.
  destruct hs as [tr [[t|]|e| |]]; simpl in *;
    try (exfalso; apply Hfatal; reflexivity);
    rewrite ?app_nil_r, <- ?app_assoc; reflexivity.
Qed.

(** X10. Once the dial has succeeded, [authenticate] closes the connection
    on every exit path, success, error or panic: the close of the connection
    is the last event of the trace and happens exactly once, and when a TLS
    connection was set up it is closed exactly once, just before. *)
Theorem authenticate_closes_connection :
  (exists front,
      trace (authenticate m (Some ar)) = front ++ [EvConnClose conn]) /\
  filter isClose (trace (authenticate m (Some ar))) =
    match Leaf clientCert with
    | Some _ => [EvTLSClose conn; EvConnClose conn]
    | None => [EvConnClose conn]
    end.
Proof.
  destruct (Leaf clientCert) as [localLeaf|] eqn:Hleaf.
  - rewrite (authenticate_connected Hleaf). cbn [trace fst].
    destruct (Handshake_events caBundle
                (tls_Handshake conn
                   (NumericIdentityToSNI (cert m) (remoteIdentity ar)))
                (Some (NotAfter localLeaf))) as (Hev & _ & _).
    split.
    + exists ([EvGetCertificateForIdentity (localIdentity ar);
               EvGetTrustBundle;
               EvDial (remoteNodeIP ar) (MutualAuthListenerPort (cfg m));
               EvNumericIdentityToSNI (remoteIdentity ar);
               EvHandshake conn
                 (NumericIdentityToSNI (cert m) (remoteIdentity ar))]
                ++ trace (Handshake m ar caBundle
                            (tls_Handshake conn
                               (NumericIdentityToSNI (cert m)
                                  (remoteIdentity ar)))
                            (Some (NotAfter localLeaf)))
                ++ [EvTLSClose conn]).
      rewrite <- !app_assoc. reflexivity.
    + rewrite !filter_app, (callback_events_not_close Hev). reflexivity.
  - rewrite (authenticate_nil_leaf_panics Hleaf). cbn [trace fst]. split.
    + eexists [_; _; _]. reflexivity.
    + reflexivity.
Qed.

(** X11. When the verifier rejects the peer in its first call (the
    certificates do not parse, the chain is not trusted, or the identity does
    not match), the handshake stops there: [authenticate] returns that error
    wrapped as a handshake failure, the rest of the handshake does not run,
    and both connections are closed. *)
Theorem authenticate_peer_rejected :
  forall (localLeaf : Certificate) (rawCerts : list (list byte))
         (next : HandshakeScript) (e : error),
    Leaf clientCert = Some localLeaf ->
    tls_Handshake conn (NumericIdentityToSNI (cert m) (remoteIdentity ar)) =
      HsVerifyPeerCertificate rawCerts next ->
    outcome (VerifyPeerCertificate m ar caBundle rawCerts
               (Some (NotAfter localLeaf))) = Error e ->
    authenticate m (Some ar) =
      ([EvGetCertificateForIdentity (localIdentity ar); EvGetTrustBundle;
        EvDial (remoteNodeIP ar) (MutualAuthListenerPort (cfg m));
        EvNumericIdentityToSNI (remoteIdentity ar);
        EvHandshake conn (NumericIdentityToSNI (cert m) (remoteIdentity ar))]
         ++ trace (VerifyPeerCertificate m ar caBundle rawCerts
                     (Some (NotAfter localLeaf)))
         ++ [EvTLSClose conn; EvConnClose conn],
       Error (HandshakeFailed e)).
Proof.
  intros localLeaf rawCerts next e Hleaf Hscript Hcb.
  rewrite (authenticate_connected Hleaf), Hscript. cbn [Handshake].
  rewrite (bind_of_Error _ _ Hcb). reflexivity.
Qed.

(** X12. Every path validation that happens during [authenticate] is
    against the trust bundle the provider returned for this call, of a
    certificate not flagged as CA with CA-flagged intermediates; and every
    identity validation is for the remote identity of the request. *)
Theorem authenticate_verifies_against_trust_bundle :
  Forall (verifyWellFormed caBundle) (trace (authenticate m (Some ar))) /\
  forall i leaf,
    In (EvValidateIdentity i leaf) (trace (authenticate m (Some ar))) ->
    i = remoteIdentity ar.
Proof.
  destruct (Leaf clientCert) as [localLeaf|] eqn:Hleaf.
  - rewrite (authenticate_connected Hleaf). cbn [trace fst].
    set (script := tls_Handshake conn
                     (NumericIdentityToSNI (cert m) (remoteIdentity ar))).
    destruct (Handshake_events caBundle script (Some (NotAfter localLeaf)))
      as (_ & Hwf & _).
    split.
    + repeat (constructor; [exact I|]).
      apply Forall_app. split; [exact Hwf|].
      repeat (constructor; [exact I|]). constructor.
    + intros i leaf Hin.
      apply in_app_or in Hin as [Hin|Hin];
        [repeat (destruct Hin as [Hin|Hin]; [discriminate|]); destruct Hin|].
      apply in_app_or in Hin as [Hin|Hin];
        [|repeat (destruct Hin as [Hin|Hin]; [discriminate|]); destruct Hin].
      clear -Hin. revert Hin.
      generalize (Some (NotAfter localLeaf)) as expiration.
      induction script as [|err|next IH|rawCerts next IH]; intros expiration;
        cbn [Handshake].
      * contradiction.
      * contradiction.
      * rewrite emit_bind. intros [Hin|Hin]; [discriminate|].
        eapply IH, Hin.
      * rewrite trace_bind. intros Hin.
        apply in_app_or in Hin as [Hin|Hin].
        -- unfold VerifyPeerCertificate in Hin.
           rewrite trace_bind, parseChain_trace in Hin. simpl app in Hin.
           destruct (outcome (parseChain rawCerts)) as [chain| | |];
             try contradiction.
           rewrite trace_bind in Hin. apply in_app_or in Hin as [Hin|Hin].
           ++ apply verifyPeerCertificate_trace_In in Hin as (c & _ & Hin).
              destruct (verifyChain_trace_cases m
                          (Some (remoteIdentity ar)) caBundle c)
                as [Hnil|(l & _ & [[_ Htr]|(_ & tail & Htr & Htail)])];
                rewrite ?Hnil, ?Htr in Hin.
              ** contradiction.
              ** destruct Hin as [Hin|[]]. discriminate.
              ** destruct Hin as [Hin|Hin]; [discriminate|].
                 destruct (Htail _ Hin) as [[msg Hmsg]|(i' & Hid & Hev)];
                   [discriminate|].
                 injection Hid as <-. injection Hev as -> _. reflexivity.
           ++ destruct (outcome (verifyPeerCertificate m
                                   (Some (remoteIdentity ar)) caBundle [chain]))
                as [[t|]| | |]; try contradiction;
                destruct expiration as [current|]; try contradiction;
                destruct (Before t current); contradiction.
        -- destruct (outcome (VerifyPeerCertificate m ar caBundle rawCerts
                                expiration)) as [e'| | |];
             try contradiction.
           eapply IH, Hin.
  - rewrite (authenticate_nil_leaf_panics Hleaf). cbn [trace fst]. split.
    + repeat (constructor; [exact I|]). constructor.
    + intros i leaf Hin.
      repeat (destruct Hin as [Hin|Hin]; [discriminate|]). destruct Hin.
Qed.

End Connected.

(** X13. Whatever the library does during the handshake and however often
    it calls the verifier, a successful [authenticate] means that every list
    of certificates handed to the verifier parsed into a chain whose leaf
    passed path validation against the provider's trust bundle and was
    accepted by [ValidateIdentity] for the remote identity of the request;
    and the expiration returned is the minimum over the local leaf and all
    those leaves, so it outlives none of them. *)
Theorem authenticate_success_all_peers_verified :
  forall resp : authResponse,
    outcome (authenticate m (Some ar)) = Return resp ->
    exists clientCert localLeaf caBundle conn peers,
      GetCertificateForIdentity (cert m) (localIdentity ar) = inr clientCert /\
      Leaf clientCert = Some localLeaf /\
      GetTrustBundle (cert m) = inr caBundle /\
      net_Dial (remoteNodeIP ar) (MutualAuthListenerPort (cfg m)) = inr conn /\
      Forall2 (verifiedPeerLeaf m ar caBundle)
        (peerCertificates
           (tls_Handshake conn
              (NumericIdentityToSNI (cert m) (remoteIdentity ar))))
        peers /\
      expirationTime resp =
        fold_left Z.min (map NotAfter peers) (NotAfter localLeaf) /\
      expirationTime resp <= NotAfter localLeaf /\
      Forall (fun peer => expirationTime resp <= NotAfter peer) peers.
Proof.
  intros resp H.
  apply authenticate_Return_inv in H
    as (clientCert & localLeaf & caBundle & conn & Hcert & Hleaf & Hca
        & Hdial & Hhs).
  apply Handshake_Return_inv in Hhs as (peers & Hpeers & He).
  injection He as He.
  exists clientCert, localLeaf, caBundle, conn, peers.
  repeat (split; [assumption|]).
  destruct (fold_left_min_le (map NotAfter peers) (NotAfter localLeaf))
    as [Hle Hall].
  rewrite He. split; [exact Hle|].
  rewrite Forall_map in Hall. exact Hall.
Qed.

End Authenticate.

(** *** The listener and the lifecycle *)

Lemma handledConnections_app (tr1 tr2 : list Event) :
  handledConnections (tr1 ++ tr2) =
  handledConnections tr1 ++ handledConnections tr2.
Proof. unfold handledConnections. apply flat_map_app. Qed.

Lemma acceptLoop_closed (err : error) (rest : list AcceptResult) :
  errors_Is_ErrClosed err = true ->
  acceptLoop (AcceptFailed err :: rest) =
  ([EvAccept; EvLog ErrorLevel "Failed to accept connection";
    EvLog InfoLevel "mTLS listener socket got closed"], Returned).
Proof. intros Hclosed. simpl. rewrite Hclosed. reflexivity. Qed.

Lemma acceptLoop_trace_quiet (accepts : list AcceptResult) :
  filter isReady (fst (acceptLoop accepts)) = [] /\
  filter isCancel (fst (acceptLoop accepts)) = [] /\
  filter isListen (fst (acceptLoop accepts)) = [].
Proof.
  induction accepts as [|res rest IH]; [repeat split|].
  destruct (isClosedError res) eqn:Hres.
  - destruct res as [conn|err]; [discriminate|].
    rewrite acceptLoop_closed by exact Hres. repeat split.
  - rewrite acceptLoop_continues by exact Hres. cbn [fst].
    rewrite !filter_app.
    destruct IH as (-> & -> & ->).
    destruct res as [conn|err]; simpl in *; [repeat split|].
    rewrite Hres. repeat split.
Qed.

Lemma acceptLoop_handled (accepts : list AcceptResult) :
  handledConnections (fst (acceptLoop accepts)) = acceptedBeforeClose accepts.
Proof.
  induction accepts as [|res rest IH]; [reflexivity|].
  destruct (isClosedError res) eqn:Hres.
  - destruct res as [conn|err]; [discriminate|].
    rewrite acceptLoop_closed by exact Hres. simpl in *.
    rewrite Hres. reflexivity.
  - rewrite acceptLoop_continues by exact Hres. cbn [fst].
    rewrite handledConnections_app, IH.
    destruct res as [conn|err]; simpl in *; [reflexivity|].
    rewrite Hres. reflexivity.
Qed.

(** X14. The accept loop hands every connection that [Accept] returns to
    one [handleConnection] goroutine, in the order accepted, as long as the
    socket is open: the connections handled are exactly those accepted before
    the first closed-socket error. Nothing that [Accept] would return after
    that error is looked at. *)
Theorem acceptLoop_serves_accepted_connections :
  forall accepts : list AcceptResult,
    handledConnections (fst (acceptLoop accepts)) =
      acceptedBeforeClose accepts /\
    forall front err rest,
      accepts = front ++ AcceptFailed err :: rest ->
      errors_Is_ErrClosed err = true ->
      acceptLoop accepts = acceptLoop (front ++ [AcceptFailed err]).
Proof.
  intros accepts. split; [apply acceptLoop_handled|].
  intros front err rest -> Hclosed.
  induction front as [|res front' IH].
  - simpl app. rewrite !acceptLoop_closed by exact Hclosed. reflexivity.
  - simpl app. destruct (isClosedError res) eqn:Hres.
    + destruct res as [conn|err']; [discriminate|].
      rewrite !acceptLoop_closed by exact Hres. reflexivity.
    + rewrite !acceptLoop_continues by exact Hres. rewrite IH. reflexivity.
Qed.

Section Listener.

Context {go : GoRuntime}.

Variable m : mutualAuthHandler.

(** X15. When the socket is bound, [listenForConnections] signals
    readiness exactly once, after the bind and before the first [Accept];
    it then serves the accepted connections, and cancels its context exactly
    when the accept loop has returned, as its last action. *)
Theorem listenForConnections_ready_once :
  forall accepts : list AcceptResult,
    net_Listen (MutualAuthListenerPort (cfg m)) = None ->
    listenForConnections m accepts =
      ([EvListen (MutualAuthListenerPort (cfg m));
        EvLog InfoLevel "Started mTLS listener"; EvReady]
         ++ fst (acceptLoop accepts)
         ++ match snd (acceptLoop accepts) with
            | Returned => [EvCancel]
            | Accepting => []
            end,
       Return (snd (acceptLoop accepts))) /\
    filter isReady (trace (listenForConnections m accepts)) = [EvReady] /\
    filter isListen (trace (listenForConnections m accepts)) =
      [EvListen (MutualAuthListenerPort (cfg m))] /\
    handledConnections (trace (listenForConnections m accepts)) =
      acceptedBeforeClose accepts.
Proof.
  intros accepts Hbound.
  assert (listenForConnections m accepts =
          ([EvListen (MutualAuthListenerPort (cfg m));
            EvLog InfoLevel "Started mTLS listener"; EvReady]
             ++ fst (acceptLoop accepts)
             ++ match snd (acceptLoop accepts) with
                | Returned => [EvCancel]
                | Accepting => []
                end,
           Return (snd (acceptLoop accepts)))) as Heq.
  { unfold listenForConnections, listen. rewrite Hbound.
    destruct (acceptLoop accepts) as [tr [|]]; simpl;
      rewrite ?app_nil_r; reflexivity. }
  split; [exact Heq|]. rewrite Heq. cbn [trace fst].
  destruct (acceptLoop_trace_quiet accepts) as (Hready & _ & Hlisten).
  pose proof (acceptLoop_handled accepts) as Hserved.
  rewrite !filter_app, !handledConnections_app, Hready, Hlisten, Hserved.
  destruct (snd (acceptLoop accepts)); simpl; rewrite ?app_nil_r;
    repeat split; reflexivity.
Qed.

End Listener.

Section Lifecycle.

Context {go : GoRuntime}.

(** X16. When the socket cannot be bound, [listenForConnections] logs at
    fatal level and the process exits: readiness is never signalled and
    [Accept] is never called, whatever connections are waiting. The start
    hook, which waits for readiness, ends the same way. *)
Theorem listenForConnections_bind_failure :
  forall (m : mutualAuthHandler) (err : error) (accepts : list AcceptResult),
    net_Listen (MutualAuthListenerPort (cfg m)) = Some err ->
    listenForConnections m accepts =
      ([EvListen (MutualAuthListenerPort (cfg m));
        EvLog FatalLevel "Failed to start mTLS listener"], Fatal) /\
    onStart m =
      ([EvLog InfoLevel "Starting mTLS auth handler";
        EvListen (MutualAuthListenerPort (cfg m));
        EvLog FatalLevel "Failed to start mTLS listener"], Fatal).
Proof.
  intros m err accepts Hbusy.
  unfold onStart, listenForConnections, listen. rewrite Hbusy.
  split; reflexivity.
Qed.

Lemma Start_app (lc1 lc2 : Lifecycle) :
  Start (lc1 ++ lc2) = bind (Start lc1) (fun _ => Start lc2).
Proof.
  induction lc1 as [|h rest IH]; simpl.
  - destruct (Start lc2) as [tr r]. reflexivity.
  - rewrite bind_assoc. apply bind_ext. intros _. exact IH.
Qed.

(** X17. With a listener port, [newMTLSAuthHandler] needs a certificate
    provider: without one it logs at fatal level and the process exits;
    with one it returns the handler built from the configuration and the
    provider and appends exactly one hook, so that starting the lifecycle
    runs the hooks that were there and then starts the handler: the socket
    is bound on the configured port and readiness signalled, or the process
    exits when the port cannot be bound. *)
Theorem newMTLSAuthHandler_enabled_lifecycle :
  forall (lc : Lifecycle) (config : MutualAuthConfig),
    MutualAuthListenerPort config <> 0 ->
    newMTLSAuthHandler lc config {| CertificateProvider := None |} =
      ([EvLog FatalLevel
          "No certificate provider configured, but one is required. Please check if the spire flags are configured."],
       Fatal) /\
    forall provider : certs_CertificateProvider,
      exists lc',
        newMTLSAuthHandler lc config {| CertificateProvider := Some provider |} =
          ([], Return (lc', {| AuthHandler :=
                                 Some {| cfg := config; cert := provider |} |})) /\
        List.length lc' = S (List.length lc) /\
        Start lc' =
          bind (Start lc)
            (fun _ =>
               match net_Listen (MutualAuthListenerPort config) with
               | None =>
                   ([EvLog InfoLevel "Starting mTLS auth handler";
                     EvListen (MutualAuthListenerPort config);
                     EvLog InfoLevel "Started mTLS listener"; EvReady],
                    Return tt)
               | Some _ =>
                   ([EvLog InfoLevel "Starting mTLS auth handler";
                     EvListen (MutualAuthListenerPort config);
                     EvLog FatalLevel "Failed to start mTLS listener"],
                    Fatal)
               end).
Proof.
  intros lc config Hport.
  unfold newMTLSAuthHandler.
  destruct (Z.eqb_spec (MutualAuthListenerPort config) 0) as [H0|_];
    [contradiction|].
  split; [reflexivity|]. intros provider.
  eexists. split; [reflexivity|]. split.
  - unfold Append. rewrite length_app. simpl. lia.
  - unfold Append. rewrite Start_app. apply bind_ext. intros _.
    simpl. unfold onStart, listen. simpl.
    destruct (net_Listen (MutualAuthListenerPort config)); reflexivity.
Qed.

End Lifecycle.

(** *** Inbound connections *)

Section Inbound.

Variable m : mutualAuthHandler.

(** X18. [GetCertificateForIncomingConnection] selects the certificate by
    the server name of the ClientHello: when the provider does not know the
    name it returns that error wrapped with the name, and asks for no
    certificate; when the name stands for an identity it returns what the
    provider's [GetCertificateForIdentity] returns for that identity,
    certificate or error, unchanged, after exactly one lookup. *)
Theorem GetCertificateForIncomingConnection_by_SNI :
  forall serverName : string,
    (forall err,
        SNIToNumericIdentity (cert m) serverName = inl err ->
        GetCertificateForIncomingConnection m serverName =
          ([EvLog DebugLevel "Got new TLS connection"],
           Error (UnknownSNI serverName err))) /\
    (forall i,
        SNIToNumericIdentity (cert m) serverName = inr i ->
        GetCertificateForIncomingConnection m serverName =
          ([EvLog DebugLevel "Got new TLS connection";
            EvGetCertificateForIdentity i],
           match GetCertificateForIdentity (cert m) i with
           | inl err => Error err
           | inr certificate => Return certificate
           end)).
Proof.
  intros serverName. split.
  - intros err Hsni. unfold GetCertificateForIncomingConnection.
    rewrite Hsni. reflexivity.
  - intros i Hsni. unfold GetCertificateForIncomingConnection.
    rewrite Hsni.
    destruct (GetCertificateForIdentity (cert m) i); reflexivity.
Qed.

Lemma GetCertificateForIncomingConnection_events (serverName : string) :
  filter isClose (trace (GetCertificateForIncomingConnection m serverName)) = []
  /\ outcome (GetCertificateForIncomingConnection m serverName) <> Panic
  /\ outcome (GetCertificateForIncomingConnection m serverName) <> Fatal.
Proof.
  unfold GetCertificateForIncomingConnection.
  destruct (SNIToNumericIdentity (cert m) serverName) as [err|i].
  - repeat split; discriminate.
  - destruct (GetCertificateForIdentity (cert m) i);
      repeat split; discriminate.
Qed.

Lemma HandshakeContext_events (script : ServerHandshakeScript) :
  filter isClose (trace (HandshakeContext m script)) = [] /\
  outcome (HandshakeContext m script) <> Panic /\
  outcome (HandshakeContext m script) <> Fatal.
Proof.
  induction script as [|err|serverName next IH]; cbn [HandshakeContext].
  - repeat split; discriminate.
  - repeat split; discriminate.
  - destruct (GetCertificateForIncomingConnection_events serverName)
      as (Hclose & Hpanic & Hfatal).
    destruct IH as (IHclose & IHpanic & IHfatal).
    rewrite trace_bind, outcome_bind, filter_app, Hclose.
    destruct (outcome (GetCertificateForIncomingConnection m serverName))
      as [c|e| |]; try contradiction; repeat split;
      try assumption; discriminate.
Qed.

(** X19. [handleConnection] never escalates: whatever the peer and the
    library do, it returns normally (no error result, no panic, no exit of
    the process), so the listener is unaffected; and it closes the
    connection as its last action, exactly once, after closing the TLS
    connection when one was set up. *)
Theorem handleConnection_never_escalates :
  forall (conn : Conn) (script : ServerHandshakeScript),
    outcome (handleConnection m conn script) = Return tt /\
    (exists front,
        trace (handleConnection m conn script) =
        EvGetTrustBundle :: front ++ [EvConnClose conn]) /\
    filter isClose (trace (handleConnection m conn script)) =
      match GetTrustBundle (cert m) with
      | inl _ => [EvConnClose conn]
      | inr _ => [EvTLSClose conn; EvConnClose conn]
      end.
Proof.
  intros conn script. unfold handleConnection.
  destruct (GetTrustBundle (cert m)) as [err|caBundle].
  - split; [reflexivity|]. split; [|reflexivity].
    exists [EvLog ErrorLevel "failed to get CA bundle"]. reflexivity.
  - destruct (HandshakeContext_events script) as (Hclose & Hpanic & Hfatal).
    destruct (HandshakeContext m script) as [tr [u|e| |]]; simpl in *;
      try contradiction.
    + split; [reflexivity|]. split.
      * exists (tr ++ [EvTLSClose conn]). rewrite <- app_assoc. reflexivity.
      * rewrite <- app_assoc, filter_app, Hclose. reflexivity.
    + split; [reflexivity|]. split.
      * exists ((tr ++ [EvLog ErrorLevel "failed to perform TLS handshake"])
                  ++ [EvTLSClose conn]).
        rewrite <- !app_assoc. reflexivity.
      * rewrite <- !app_assoc, filter_app, Hclose. reflexivity.
Qed.

(** X20. What goes wrong in [handleConnection] is logged once, at error
    level: without a trust bundle no handshake is attempted (no certificate
    is looked up); a handshake that fails, on its own or because the
    certificate callback returned an error, is logged after the callbacks
    that ran; a handshake that completes logs no error. *)
Theorem handleConnection_logs_failures :
  forall (conn : Conn) (script : ServerHandshakeScript),
    (forall err,
        GetTrustBundle (cert m) = inl err ->
        handleConnection m conn script =
          ([EvGetTrustBundle; EvLog ErrorLevel "failed to get CA bundle";
            EvConnClose conn], Return tt)) /\
    (forall caBundle e,
        GetTrustBundle (cert m) = inr caBundle ->
        outcome (HandshakeContext m script) = Error e ->
        handleConnection m conn script =
          (EvGetTrustBundle :: trace (HandshakeContext m script)
             ++ [EvLog ErrorLevel "failed to perform TLS handshake";
                 EvTLSClose conn; EvConnClose conn], Return tt)) /\
    (forall caBundle,
        GetTrustBundle (cert m) = inr caBundle ->
        outcome (HandshakeContext m script) = Return tt ->
        handleConnection m conn script =
          (EvGetTrustBundle :: trace (HandshakeContext m script)
             ++ [EvTLSClose conn; EvConnClose conn], Return tt)).
Proof.
  intros conn script. unfold handleConnection. split; [|split].
  - intros err ->. reflexivity.
  - intros caBundle e -> He.
    destruct (HandshakeContext m script) as [tr r]; simpl in *; subst r.
    simpl. rewrite <- !app_assoc. reflexivity.
  - intros caBundle -> He.
    destruct (HandshakeContext m script) as [tr r]; simpl in *; subst r.
    simpl. rewrite <- !app_assoc. reflexivity.
Qed.

(** X21. During the server handshake an unknown server name aborts the
    handshake with the wrapped lookup error, and a certificate the provider
    cannot supply aborts it with the provider's error; in both cases nothing
    of the handshake after the ClientHello runs. *)
Theorem HandshakeContext_aborts_on_certificate_error :
  forall (serverName : string) (next : ServerHandshakeScript) (e : error),
    outcome (GetCertificateForIncomingConnection m serverName) = Error e ->
    HandshakeContext m (SrvGetCertificate serverName next) =
      (trace (GetCertificateForIncomingConnection m serverName), Error e) /\
    ((exists err,
         SNIToNumericIdentity (cert m) serverName = inl err /\
         e = UnknownSNI serverName err) \/
     (exists i,
         SNIToNumericIdentity (cert m) serverName = inr i /\
         GetCertificateForIdentity (cert m) i = inl e)).
Proof.
  intros serverName next e He. split.
  - cbn [HandshakeContext]. rewrite (bind_of_Error _ _ He). reflexivity.
  - unfold GetCertificateForIncomingConnection in He.
    rewrite outcome_emit_bind in He.
    destruct (SNIToNumericIdentity (cert m) serverName) as [err|i].
    + left. exists err. injection He as <-. split; reflexivity.
    + right. exists i. split; [reflexivity|].
      rewrite outcome_emit_bind in He.
      destruct (GetCertificateForIdentity (cert m) i) as [err|c];
        [injection He as <-; reflexivity|discriminate].
Qed.

End Inbound.

(** ** The further properties at work *)

Lemma verifyPeerCertificate_accepts_iff_witness :
  ([[remoteLeaf; intermediateCA]; [laterLeaf]] <> [] /\
   Forall (chainAccepted (go := runtime) handler (Some 10%N) [rootCA])
          [[remoteLeaf; intermediateCA]; [laterLeaf]]) /\
  exists r,
    outcome (verifyPeerCertificate (go := runtime) handler (Some 10%N)
               [rootCA] [[remoteLeaf; intermediateCA]; [laterLeaf]]) =
    Return r.
Proof.
  assert ([[remoteLeaf; intermediateCA]; [laterLeaf]] <> [] /\
          Forall (chainAccepted (go := runtime) handler (Some 10%N) [rootCA])
                 [[remoteLeaf; intermediateCA]; [laterLeaf]]) as Hyp.
  { split; [discriminate|].
    constructor; [exists remoteLeaf; repeat split|].
    constructor; [exists laterLeaf; repeat split|constructor]. }
  split; [exact Hyp|].
  exact (proj2 (verifyPeerCertificate_accepts_iff (go := runtime) handler
                  (Some 10%N) [rootCA]
                  [[remoteLeaf; intermediateCA]; [laterLeaf]]) Hyp).
Defined.

Lemma verifyPeerCertificate_stops_at_first_failure_witness :
  outcome (verifyChains (go := runtime) handler None [rootCA]
             [[remoteLeaf; intermediateCA]] None) = Return (Some 1874966400) /\
  outcome (verifyChain (go := runtime) handler None [rootCA] [intermediateCA])
    = Error MissingLeafCertificate /\
  verifyPeerCertificate (go := runtime) handler None [rootCA]
    ([[remoteLeaf; intermediateCA]] ++ [intermediateCA] :: [[laterLeaf]]) =
    ([EvVerify remoteLeaf
        {| Roots := [rootCA]; Intermediates := [intermediateCA] |};
      EvLog DebugLevel "Validated certificate"],
     Error MissingLeafCertificate).
Proof.
  split; [reflexivity|]. split; [reflexivity|].
  exact (verifyPeerCertificate_stops_at_first_failure (go := runtime) handler
           None [rootCA] [[remoteLeaf; intermediateCA]] [intermediateCA]
           eq_refl eq_refl [[laterLeaf]]).
Defined.

Lemma ValidateIdentity_only_after_path_validation_witness :
  In (EvValidateIdentity 10%N remoteLeaf)
     (trace (verifyPeerCertificate (go := runtime) handler (Some 10%N)
               [rootCA] [[remoteLeaf; intermediateCA]])) /\
  Some 10%N = Some 10%N /\
  exists chain,
    In chain [[remoteLeaf; intermediateCA]] /\
    chainLeaf chain = Some remoteLeaf /\
    x509_Verify (GoRuntime := runtime) remoteLeaf
      (chainOptions [rootCA] chain) = None.
Proof.
  assert (In (EvValidateIdentity 10%N remoteLeaf)
             (trace (verifyPeerCertificate (go := runtime) handler (Some 10%N)
                       [rootCA] [[remoteLeaf; intermediateCA]]))) as Hyp
    by (right; right; left; reflexivity).
  split; [exact Hyp|].
  exact (ValidateIdentity_only_after_path_validation (go := runtime) handler
           (Some 10%N) [rootCA] [[remoteLeaf; intermediateCA]] 10%N
           remoteLeaf Hyp).
Defined.

Lemma parseChain_all_or_first_error_witness :
  Forall (fun r => exists c,
            x509_ParseCertificate (GoRuntime := runtime) r = inr c)
         [Raw remoteLeaf] /\
  x509_ParseCertificate (GoRuntime := runtime) [xff] =
    inl (errors_New "x509: malformed certificate") /\
  outcome (parseChain (go := runtime)
             [Raw remoteLeaf; [xff]; Raw intermediateCA]) =
    Error (CertificateParseError (errors_New "x509: malformed certificate")) /\
  outcome (parseChain (go := runtime) [Raw remoteLeaf; Raw intermediateCA]) =
    Return [remoteLeaf; intermediateCA].
Proof.
  assert (Forall (fun r => exists c,
                    x509_ParseCertificate (GoRuntime := runtime) r = inr c)
                 [Raw remoteLeaf]) as Hfront
    by (constructor; [exists remoteLeaf; reflexivity|constructor]).
  split; [exact Hfront|]. split; [reflexivity|].
  pose proof (parseChain_all_or_first_error (go := runtime)
                [Raw remoteLeaf; [xff]; Raw intermediateCA])
    as (_ & _ & Hfirst).
  pose proof (parseChain_all_or_first_error (go := runtime)
                [Raw remoteLeaf; Raw intermediateCA])
    as (_ & Hall & _).
  split.
  - exact (Hfirst [Raw remoteLeaf] [xff] [Raw intermediateCA] _ eq_refl
             Hfront eq_refl).
  - apply Hall. repeat constructor.
Defined.

Lemma VerifyPeerCertificate_errors_witness :
  outcome (parseChain (go := garbledRuntime)
             [Raw remoteLeaf; [xff]; Raw intermediateCA]) =
    Error (CertificateParseError (errors_New "x509: malformed certificate")) /\
  VerifyPeerCertificate (go := garbledRuntime) handler request [rootCA]
    [Raw remoteLeaf; [xff]; Raw intermediateCA] (Some 1893456000) =
    ([], Error (CertificateParseError
                  (errors_New "x509: malformed certificate"))) /\
  VerifyPeerCertificate (go := garbledRuntime) handler request [rootCA] []
    (Some 1893456000) = ([], Error MissingLeafCertificate).
Proof.
  split; [reflexivity|].
  pose proof (VerifyPeerCertificate_errors (go := garbledRuntime) handler
                request [rootCA]
                [Raw remoteLeaf; [xff]; Raw intermediateCA]
                (Some 1893456000)) as (_ & Hnone & Hparse).
  split; [exact (proj1 (Hparse _ eq_refl))|exact Hnone].
Defined.

Lemma authenticate_fails_fast_witness :
  GetCertificateForIdentity emptyProvider 5%N =
    inl (errors_New "no SVID found") /\
  authenticate (go := runtime) (handlerOf emptyProvider) (Some request) =
    ([EvGetCertificateForIdentity 5%N],
     Error (fmt_Errorf_w "failed to get certificate for local identity %s: %w"
              [ArgS "spiffe://spiffe.cilium/identity/5"]
              (errors_New "no SVID found"))) /\
  GetTrustBundle bundlelessProvider = inl (errors_New "no trust bundle") /\
  authenticate (go := runtime) (handlerOf bundlelessProvider) (Some request) =
    ([EvGetCertificateForIdentity 5%N; EvGetTrustBundle],
     Error (fmt_Errorf_w "failed to get CA bundle: %w" []
              (errors_New "no trust bundle"))) /\
  net_Dial (GoRuntime := offlineRuntime) "10.0.0.2" 4250 =
    inl (net_OpError "dial" (errors_New "connection refused")) /\
  authenticate (go := offlineRuntime) handler (Some request) =
    ([EvGetCertificateForIdentity 5%N; EvGetTrustBundle;
      EvDial "10.0.0.2" 4250],
     Error (fmt_Errorf_w "failed to dial %s:%d: %w"
              [ArgS "10.0.0.2"; ArgD 4250]
              (net_OpError "dial" (errors_New "connection refused")))).
Proof.
  split; [reflexivity|]. split.
  { exact (proj1 (authenticate_fails_fast (go := runtime)
                    (handlerOf emptyProvider) request) _ eq_refl). }
  split; [reflexivity|]. split.
  { exact (proj1 (proj2 (authenticate_fails_fast (go := runtime)
                           (handlerOf bundlelessProvider) request))
             _ _ eq_refl eq_refl). }
  split; [reflexivity|].
  exact (proj2 (proj2 (authenticate_fails_fast (go := offlineRuntime)
                         handler request))
           _ _ _ eq_refl eq_refl eq_refl).
Defined.

Lemma authenticate_nil_leaf_panics_witness :
  GetCertificateForIdentity leaflessProvider 5%N = inr {| Leaf := None |} /\
  authenticate (go := runtime) (handlerOf leaflessProvider) (Some request) =
    ([EvGetCertificateForIdentity 5%N; EvGetTrustBundle;
      EvDial "10.0.0.2" 4250; EvConnClose 1%N], Panic).
Proof.
  split; [reflexivity|].
  exact (authenticate_nil_leaf_panics (go := runtime)
           (handlerOf leaflessProvider) request
           (clientCert := {| Leaf := None |}) (caBundle := [rootCA])
           (conn := 1%N) eq_refl eq_refl eq_refl eq_refl).
Defined.

Lemma authenticate_closes_connection_witness :
  GetCertificateForIdentity provider 5%N = inr {| Leaf := Some localLeaf |} /\
  GetTrustBundle provider = inr [rootCA] /\
  net_Dial (GoRuntime := runtime) "10.0.0.2" 4250 = inr 1%N /\
  (exists front,
      trace (authenticate (go := runtime) handler (Some request)) =
      front ++ [EvConnClose 1%N]) /\
  filter isClose (trace (authenticate (go := runtime) handler (Some request)))
    = [EvTLSClose 1%N; EvConnClose 1%N].
Proof.
  split; [reflexivity|]. split; [reflexivity|]. split; [reflexivity|].
  exact (authenticate_closes_connection (go := runtime) handler request
           (clientCert := {| Leaf := Some localLeaf |}) (caBundle := [rootCA])
           (conn := 1%N) eq_refl eq_refl eq_refl).
Defined.

(** The remote certificate is signed by a root the local trust bundle
    does not hold: the chain-verification error comes back as a handshake
    failure, and the connection is closed. *)
Lemma authenticate_peer_rejected_witness :
  outcome (VerifyPeerCertificate (go := runtime) (handlerOf foreignProvider)
             request [intermediateCA] [Raw remoteLeaf; Raw intermediateCA]
             (Some 1893456000)) =
    Error (ChainVerificationFailed
             (errors_New "x509: certificate signed by unknown authority")) /\
  authenticate (go := runtime) (handlerOf foreignProvider) (Some request) =
    ([EvGetCertificateForIdentity 5%N; EvGetTrustBundle;
      EvDial "10.0.0.2" 4250; EvNumericIdentityToSNI 10%N;
      EvHandshake 1%N "spiffe://spiffe.cilium/identity/10";
      EvVerify remoteLeaf
        {| Roots := [intermediateCA]; Intermediates := [intermediateCA] |};
      EvTLSClose 1%N; EvConnClose 1%N],
     Error (HandshakeFailed
              (ChainVerificationFailed
                 (errors_New "x509: certificate signed by unknown authority")))).
Proof.
  split; [reflexivity|].
  exact (authenticate_peer_rejected (go := runtime)
           (handlerOf foreignProvider) request
           (clientCert := {| Leaf := Some localLeaf |})
           (caBundle := [intermediateCA]) (conn := 1%N)
           eq_refl eq_refl eq_refl
           (localLeaf := localLeaf)
           (rawCerts := [Raw remoteLeaf; Raw intermediateCA])
           (next := HsGetClientCertificate HsDone)
           eq_refl eq_refl eq_refl).
Defined.

Lemma authenticate_verifies_against_trust_bundle_witness :
  GetTrustBundle provider = inr [rootCA] /\
  Forall (verifyWellFormed [rootCA])
         (trace (authenticate (go := runtime) handler (Some request))) /\
  forall i leaf,
    In (EvValidateIdentity i leaf)
       (trace (authenticate (go := runtime) handler (Some request))) ->
    i = 10%N.
Proof.
  split; [reflexivity|].
  exact (authenticate_verifies_against_trust_bundle (go := runtime) handler
           request (clientCert := {| Leaf := Some localLeaf |})
           (caBundle := [rootCA]) (conn := 1%N) eq_refl eq_refl eq_refl).
Defined.

Lemma authenticate_success_all_peers_verified_witness :
  outcome (authenticate (go := runtime) handler (Some request)) =
    Return {| expirationTime := 1874966400 |} /\
  exists clientCert local caBundle conn peers,
    GetCertificateForIdentity provider 5%N = inr clientCert /\
    Leaf clientCert = Some local /\
    GetTrustBundle provider = inr caBundle /\
    net_Dial (GoRuntime := runtime) "10.0.0.2" 4250 = inr conn /\
    Forall2 (verifiedPeerLeaf (go := runtime) handler request caBundle)
      (peerCertificates
         (tls_Handshake (GoRuntime := runtime) conn (spiffeID 10%N)))
      peers /\
    1874966400 = fold_left Z.min (map NotAfter peers) (NotAfter local) /\
    1874966400 <= NotAfter local /\
    Forall (fun peer => 1874966400 <= NotAfter peer) peers.
Proof.
  split; [reflexivity|].
  exact (authenticate_success_all_peers_verified (go := runtime) handler
           request eq_refl).
Defined.

Lemma acceptLoop_serves_accepted_connections_witness :
  errors_Is_ErrClosed (net_OpError "accept" net_ErrClosed) = true /\
  handledConnections
    (fst (acceptLoop
            [Accepted 7%N;
             AcceptFailed (net_OpError "accept" (errors_New "timeout"));
             Accepted 8%N;
             AcceptFailed (net_OpError "accept" net_ErrClosed);
             Accepted 9%N])) = [7%N; 8%N] /\
  acceptLoop
    ([Accepted 7%N] ++ AcceptFailed (net_OpError "accept" net_ErrClosed)
       :: [Accepted 9%N]) =
  acceptLoop
    ([Accepted 7%N] ++ [AcceptFailed (net_OpError "accept" net_ErrClosed)]).
Proof.
  split; [reflexivity|]. split.
  - exact (proj1 (acceptLoop_serves_accepted_connections
                    [Accepted 7%N;
                     AcceptFailed (net_OpError "accept" (errors_New "timeout"));
                     Accepted 8%N;
                     AcceptFailed (net_OpError "accept" net_ErrClosed);
                     Accepted 9%N])).
  - exact (proj2 (acceptLoop_serves_accepted_connections
                    ([Accepted 7%N]
                       ++ AcceptFailed (net_OpError "accept" net_ErrClosed)
                       :: [Accepted 9%N]))
             [Accepted 7%N] (net_OpError "accept" net_ErrClosed)
             [Accepted 9%N] eq_refl eq_refl).
Defined.

Lemma listenForConnections_ready_once_witness :
  net_Listen (GoRuntime := runtime) 4250 = None /\
  listenForConnections (go := runtime) handler
    [Accepted 7%N; AcceptFailed (net_OpError "accept" net_ErrClosed)] =
    ([EvListen 4250; EvLog InfoLevel "Started mTLS listener"; EvReady;
      EvAccept; EvGoHandleConnection 7%N;
      EvAccept; EvLog ErrorLevel "Failed to accept connection";
      EvLog InfoLevel "mTLS listener socket got closed"; EvCancel],
     Return Returned).
Proof.
  split; [reflexivity|].
  exact (proj1 (listenForConnections_ready_once (go := runtime) handler
                  [Accepted 7%N;
                   AcceptFailed (net_OpError "accept" net_ErrClosed)]
                  eq_refl)).
Defined.

Lemma listenForConnections_bind_failure_witness :
  net_Listen (GoRuntime := offlineRuntime) 4250 =
    Some (net_OpError "listen" (errors_New "address already in use")) /\
  listenForConnections (go := offlineRuntime) handler [Accepted 7%N] =
    ([EvListen 4250; EvLog FatalLevel "Failed to start mTLS listener"],
     Fatal).
Proof.
  split; [reflexivity|].
  exact (proj1 (listenForConnections_bind_failure (go := offlineRuntime)
                  handler [Accepted 7%N] eq_refl)).
Defined.

Lemma newMTLSAuthHandler_enabled_lifecycle_witness :
  MutualAuthListenerPort {| MutualAuthListenerPort := 4250 |} <> 0 /\
  newMTLSAuthHandler [] {| MutualAuthListenerPort := 4250 |}
    {| CertificateProvider := None |} =
    ([EvLog FatalLevel
        "No certificate provider configured, but one is required. Please check if the spire flags are configured."],
     Fatal) /\
  exists lc',
    newMTLSAuthHandler [] {| MutualAuthListenerPort := 4250 |}
      {| CertificateProvider := Some provider |} =
      ([], Return (lc', {| AuthHandler := Some handler |})) /\
    List.length lc' = 1%nat /\
    Start (go := runtime) lc' =
      ([EvLog InfoLevel "Starting mTLS auth handler"; EvListen 4250;
        EvLog InfoLevel "Started mTLS listener"; EvReady], Return tt).
Proof.
  assert (MutualAuthListenerPort {| MutualAuthListenerPort := 4250 |} <> 0)
    as Hport by discriminate.
  split; [exact Hport|].
  destruct (newMTLSAuthHandler_enabled_lifecycle (go := runtime) []
              {| MutualAuthListenerPort := 4250 |} Hport) as [Hnil Hsome].
  split; [exact Hnil|]. exact (Hsome provider).
Defined.

Lemma GetCertificateForIncomingConnection_by_SNI_witness :
  SNIToNumericIdentity provider (NumericIdentityToSNI provider 10%N) =
    inr 10%N /\
  GetCertificateForIncomingConnection handler
    (NumericIdentityToSNI provider 10%N) =
    ([EvLog DebugLevel "Got new TLS connection";
      EvGetCertificateForIdentity 10%N],
     Return {| Leaf := Some localLeaf |}) /\
  SNIToNumericIdentity provider "example.org" =
    inl (errors_New "unknown identity") /\
  GetCertificateForIncomingConnection handler "example.org" =
    ([EvLog DebugLevel "Got new TLS connection"],
     Error (UnknownSNI "example.org" (errors_New "unknown identity"))).
Proof.
  split; [reflexivity|]. split.
  { exact (proj2 (GetCertificateForIncomingConnection_by_SNI handler
                    (NumericIdentityToSNI provider 10%N)) 10%N eq_refl). }
  split; [reflexivity|].
  exact (proj1 (GetCertificateForIncomingConnection_by_SNI handler
                  "example.org") _ eq_refl).
Defined.

Lemma handleConnection_logs_failures_witness :
  GetTrustBundle bundlelessProvider = inl (errors_New "no trust bundle") /\
  handleConnection (handlerOf bundlelessProvider) 7%N
    (SrvGetCertificate "spiffe://spiffe.cilium/identity/10" SrvDone) =
    ([EvGetTrustBundle; EvLog ErrorLevel "failed to get CA bundle";
      EvConnClose 7%N], Return tt) /\
  outcome (HandshakeContext handler (SrvGetCertificate "example.org" SrvDone))
    = Error (UnknownSNI "example.org" (errors_New "unknown identity")) /\
  handleConnection handler 7%N (SrvGetCertificate "example.org" SrvDone) =
    ([EvGetTrustBundle; EvLog DebugLevel "Got new TLS connection";
      EvLog ErrorLevel "failed to perform TLS handshake";
      EvTLSClose 7%N; EvConnClose 7%N], Return tt).
Proof.
  split; [reflexivity|]. split.
  { exact (proj1 (handleConnection_logs_failures
                    (handlerOf bundlelessProvider) 7%N
                    (SrvGetCertificate "spiffe://spiffe.cilium/identity/10"
                       SrvDone)) _ eq_refl). }
  split; [reflexivity|].
  exact (proj1 (proj2 (handleConnection_logs_failures handler 7%N
                         (SrvGetCertificate "example.org" SrvDone)))
           [rootCA] _ eq_refl eq_refl).
Defined.

Lemma HandshakeContext_aborts_on_certificate_error_witness :
  outcome (GetCertificateForIncomingConnection handler "example.org") =
    Error (UnknownSNI "example.org" (errors_New "unknown identity")) /\
  HandshakeContext handler
    (SrvGetCertificate "example.org"
       (SrvGetCertificate "spiffe://spiffe.cilium/identity/10" SrvDone)) =
    ([EvLog DebugLevel "Got new TLS connection"],
     Error (UnknownSNI "example.org" (errors_New "unknown identity"))).
Proof.
  split; [reflexivity|].
  exact (proj1 (HandshakeContext_aborts_on_certificate_error handler
                  "example.org"
                  (SrvGetCertificate "spiffe://spiffe.cilium/identity/10"
                     SrvDone) eq_refl)).
Defined.
